(** * Article chatbot: segmentation, context retrieval and rule-based fallback

    A shallow embedding of [chatbot.py]: the module-level [chunk_text], the
    [ArticleChatbot] methods [get_relevant_context], [chat_with_article] and
    the [_handle_*] family.  Python strings are sequences of code points; the
    embedding covers the code points below 256 (Latin-1), for which
    [str.lower] keeps the length and the tables below are exact. *)

From Stdlib Require Import ZArith Lia List Ascii String Bool.
From stdpp Require Import gmap strings.
Import ListNotations.

Local Open Scope string_scope.
Local Open Scope Z_scope.

(** ** Exceptions and results *)

Inductive exn : Type :=
  | ValueError
  | TypeError
  | KeyError
  | ServiceError.

Inductive result (A : Type) : Type :=
  | Ok (a : A)
  | Raise (e : exn).

Arguments Ok {A} a.
Arguments Raise {A} e.

Definition rbind {A B : Type} (r : result A) (k : A -> result B) : result B :=
  match r with
  | Ok a => k a
  | Raise e => Raise e
  end.

Definition is_ok {A : Type} (r : result A) : bool :=
  match r with Ok _ => true | Raise _ => false end.

(** ** Python built-ins used by the program *)

Module Py.

Definition code (c : ascii) : N := N_of_ascii c.

(** [str.isspace] on one code point below 256. *)
Definition is_space (c : ascii) : bool :=
  let n := code c in
  ((9 <=? n) && (n <=? 13) || (28 <=? n) && (n <=? 32)
   || (n =? 133) || (n =? 160))%N.

(** [str.lower] on one code point below 256. *)
Definition lower_char (c : ascii) : ascii :=
  let n := code c in
  if ((65 <=? n) && (n <=? 90)
      || (192 <=? n) && (n <=? 222) && negb (n =? 215))%N
  then ascii_of_N (n + 32) else c.

Fixpoint lower (s : string) : string :=
  match s with
  | EmptyString => EmptyString
  | String c s' => String (lower_char c) (lower s')
  end.

Definition len (s : string) : Z := Z.of_nat (String.length s).

Fixpoint take (n : nat) (s : string) : string :=
  match n, s with
  | S n', String c s' => String c (take n' s')
  | _, _ => EmptyString
  end.

Fixpoint drop (n : nat) (s : string) : string :=
  match n, s with
  | S n', String _ s' => drop n' s'
  | _, _ => s
  end.

(** A slice bound [i] of a sequence of length [n]: negative bounds count
    from the end, and every bound is clamped into [0, n]. *)
Definition clamp_index (n i : Z) : Z :=
  if i <? 0 then Z.max 0 (i + n) else Z.min i n.

(** [s[i:j]] *)
Definition slice (s : string) (i j : Z) : string :=
  let lo := clamp_index (len s) i in
  let hi := clamp_index (len s) j in
  take (Z.to_nat (hi - lo)) (drop (Z.to_nat lo) s).

(** [l[i:]] on a list *)
Definition list_from {A : Type} (l : list A) (i : Z) : list A :=
  skipn (Z.to_nat (clamp_index (Z.of_nat (length l)) i)) l.

(** [range(start, stop, step)], with the length CPython computes. *)
Definition range_length (start stop step : Z) : Z :=
  let lo := if 0 <? step then start else stop in
  let hi := if 0 <? step then stop else start in
  if hi <=? lo then 0 else (hi - lo - 1) / Z.abs step + 1.

Definition range (start stop step : Z) : result (list Z) :=
  if step =? 0 then Raise ValueError
  else Ok (map (fun k : nat => start + Z.of_nat k * step)
               (seq 0 (Z.to_nat (range_length start stop step)))).

(** [x.startswith(p)] *)
Fixpoint starts_with (p s : string) : bool :=
  match p, s with
  | EmptyString, _ => true
  | String a p', String b s' => if Ascii.eqb a b then starts_with p' s' else false
  | String _ _, EmptyString => false
  end.

(** [needle in hay] *)
Fixpoint contains (needle hay : string) : bool :=
  starts_with needle hay
  || match hay with
     | EmptyString => false
     | String _ hay' => contains needle hay'
     end.

(** [s.split()]: maximal runs of non-space characters.  [cur] holds the
    run being read, reversed. *)
Fixpoint rev_string (acc s : string) : string :=
  match s with
  | EmptyString => acc
  | String c s' => rev_string (String c acc) s'
  end.

Definition flush (cur : string) (rest : list string) : list string :=
  match cur with
  | EmptyString => rest
  | _ => rev_string EmptyString cur :: rest
  end.

Fixpoint split_go (cur : string) (s : string) : list string :=
  match s with
  | EmptyString => flush cur []
  | String c s' =>
      if is_space c then flush cur (split_go EmptyString s')
      else split_go (String c cur) s'
  end.

Definition split (s : string) : list string := split_go EmptyString s.

(** [s.strip()] *)
Fixpoint lstrip (s : string) : string :=
  match s with
  | String c s' => if is_space c then lstrip s' else s
  | EmptyString => EmptyString
  end.

Fixpoint rstrip (s : string) : string :=
  match s with
  | EmptyString => EmptyString
  | String c s' =>
      match rstrip s' with
      | EmptyString => if is_space c then EmptyString else String c EmptyString
      | r => String c r
      end
  end.

Definition strip (s : string) : string := rstrip (lstrip s).

(** [s.replace(old, new)] for a non-empty [old]: occurrences are found
    left to right and do not overlap.  [skip] counts the characters of an
    occurrence that are still to be dropped. *)
Fixpoint replace_go (old new : string) (skip : nat) (s : string) : string :=
  match s with
  | EmptyString => EmptyString
  | String c s' =>
      match skip with
      | S k => replace_go old new k s'
      | O =>
          if starts_with old s
          then new ++ replace_go old new (Nat.pred (String.length old)) s'
          else String c (replace_go old new O s')
      end
  end.

(** With an empty [old], Python puts [new] around every character. *)
Fixpoint intersperse (new s : string) : string :=
  match s with
  | EmptyString => new
  | String c s' => new ++ String c (intersperse new s')
  end.

Definition replace (old new s : string) : string :=
  match old with
  | EmptyString => intersperse new s
  | _ => replace_go old new O s
  end.

(** [sep.join(l)] *)
Fixpoint join (sep : string) (l : list string) : string :=
  match l with
  | [] => EmptyString
  | [x] => x
  | x :: l' => x ++ sep ++ join sep l'
  end.

(** The fragments of a list written one after the other. *)
Fixpoint concat (l : list string) : string :=
  match l with
  | [] => EmptyString
  | x :: l' => x ++ concat l'
  end.

(** Decimal text of an integer, as [str(int)] prints it. *)
Definition digit_char (d : Z) : ascii := ascii_of_N (48 + Z.to_N d).

Fixpoint digits_go (fuel : nat) (n : Z) (acc : string) : string :=
  match fuel with
  | O => acc
  | S fuel' =>
      let acc' := String (digit_char (n mod 10)) acc in
      if n <? 10 then acc' else digits_go fuel' (n / 10) acc'
  end.

Definition str_of_nonneg (n : Z) : string :=
  digits_go (S (Z.to_nat (Z.log2 n))) n EmptyString.

Definition str_of_int (n : Z) : string :=
  if n <? 0 then "-" ++ str_of_nonneg (- n) else str_of_nonneg n.

End Py.

(** ** Segmenter *)

(** [[text[i:i + chunk_size] for i in range(0, len(text), chunk_size)]] *)
Definition chunk_text (text : string) (chunk_size : Z) : result (list string) :=
  rbind (Py.range 0 (Py.len text) chunk_size)
        (fun idx => Ok (map (fun i => Py.slice text i (i + chunk_size)) idx)).

(** ** Values stored in an article row *)

Inductive pyval : Type :=
  | PyNone
  | PyStr (s : string)
  | PyInt (n : Z).

(** Truth value of an object in a condition. *)
Definition truthy (v : pyval) : bool :=
  match v with
  | PyNone => false
  | PyStr s => negb (String.eqb s EmptyString)
  | PyInt n => negb (n =? 0)
  end.

(** What an f-string prints for [{v}]. *)
Definition format_value (v : pyval) : string :=
  match v with
  | PyNone => "None"
  | PyStr s => s
  | PyInt n => Py.str_of_int n
  end.

(** [len(v)]: only strings have a length among these values. *)
Definition len_value (v : pyval) : result Z :=
  match v with
  | PyStr s => Ok (Py.len s)
  | _ => Raise TypeError
  end.

Definition dict_in (k : string) (d : gmap string pyval) : bool :=
  bool_decide (is_Some (d !! k)).

Definition dict_getitem (d : gmap string pyval) (k : string) : result pyval :=
  match d !! k with
  | Some v => Ok v
  | None => Raise KeyError
  end.

Definition dict_get (d : gmap string pyval) (k : string) (dflt : pyval) : pyval :=
  default dflt (d !! k).

(** ** [datetime.strptime(date, '%Y-%m-%d')] and [strftime('%B %d, %Y')] *)

Module Date.

(** A regular-expression matcher with ordered alternatives: the results
    are listed in the order a backtracking engine tries them. *)
Definition parser (A : Type) : Type := string -> list (A * string).

Definition is_digit (c : ascii) : bool :=
  ((48 <=? Py.code c) && (Py.code c <=? 57))%N.

Definition digit_val (c : ascii) : Z := Z.of_N (Py.code c) - 48.

(** One digit in the class [[lo-hi]]. *)
Definition p_digit (lo hi : Z) : parser Z := fun s =>
  match s with
  | String c r =>
      if is_digit c && (lo <=? digit_val c) && (digit_val c <=? hi)
      then [(digit_val c, r)] else []
  | EmptyString => []
  end.

Definition p_char (a : ascii) : parser unit := fun s =>
  match s with
  | String c r => if Ascii.eqb a c then [(tt, r)] else []
  | EmptyString => []
  end.

Definition p_seq {A B : Type} (p : parser A) (q : A -> parser B) : parser B :=
  fun s => flat_map (fun ar : A * string => q (fst ar) (snd ar)) (p s).

Definition p_ret {A : Type} (a : A) : parser A := fun s => [(a, s)].

Definition p_alt {A : Type} (ps : list (parser A)) : parser A :=
  fun s => flat_map (fun p : parser A => p s) ps.

(** [(?P<Y>\d\d\d\d)] *)
Definition p_Y : parser Z :=
  p_seq (p_digit 0 9) (fun a => p_seq (p_digit 0 9) (fun b =>
  p_seq (p_digit 0 9) (fun c => p_seq (p_digit 0 9) (fun d =>
  p_ret (1000 * a + 100 * b + 10 * c + d))))).

(** [(?P<m>1[0-2]|0[1-9]|[1-9])] *)
Definition p_m : parser Z :=
  p_alt [ p_seq (p_digit 1 1) (fun _ => p_seq (p_digit 0 2) (fun b => p_ret (10 + b)));
          p_seq (p_digit 0 0) (fun _ => p_digit 1 9);
          p_digit 1 9 ].

(** [(?P<d>3[0-1]|[1-2]\d|0[1-9]|[1-9]| [1-9])] *)
Definition p_d : parser Z :=
  p_alt [ p_seq (p_digit 3 3) (fun _ => p_seq (p_digit 0 1) (fun b => p_ret (30 + b)));
          p_seq (p_digit 1 2) (fun a => p_seq (p_digit 0 9) (fun b => p_ret (10 * a + b)));
          p_seq (p_digit 0 0) (fun _ => p_digit 1 9);
          p_digit 1 9;
          p_seq (p_char " ") (fun _ => p_digit 1 9) ].

Record date : Type := mkdate { year : Z; month : Z; day : Z }.

Definition p_Ymd : parser date :=
  p_seq p_Y (fun y => p_seq (p_char "-") (fun _ =>
  p_seq p_m (fun m => p_seq (p_char "-") (fun _ =>
  p_seq p_d (fun d => p_ret (mkdate y m d)))))).

Definition is_leap (y : Z) : bool :=
  (y mod 4 =? 0) && (negb (y mod 100 =? 0) || (y mod 400 =? 0)).

Definition days_in_month (y m : Z) : Z :=
  if m =? 2 then (if is_leap y then 29 else 28)
  else if (m =? 4) || (m =? 6) || (m =? 9) || (m =? 11) then 30
  else 31.

(** The constructor of [datetime]: years start at 1 and the day has to
    exist in its month. *)
Definition valid (d : date) : bool :=
  (1 <=? year d) && (1 <=? month d) && (month d <=? 12)
  && (1 <=? day d) && (day d <=? days_in_month (year d) (month d)).

(** The first match of the pattern from the start of the text; text left
    over after it, or a date that does not exist, is a [ValueError]. *)
Definition strptime_Ymd (s : string) : result date :=
  match p_Ymd s with
  | [] => Raise ValueError
  | (d, rest) :: _ =>
      match rest with
      | EmptyString => if valid d then Ok d else Raise ValueError
      | String _ _ => Raise ValueError
      end
  end.

Definition month_name (m : Z) : string :=
  match m with
  | 1 => "January" | 2 => "February" | 3 => "March" | 4 => "April"
  | 5 => "May" | 6 => "June" | 7 => "July" | 8 => "August"
  | 9 => "September" | 10 => "October" | 11 => "November"
  | _ => "December"
  end.

(** [%d]: two digits. *)
Definition two_digits (n : Z) : string :=
  String (Py.digit_char (n / 10)) (String (Py.digit_char (n mod 10)) EmptyString).

(** ['%B %d, %Y'] in the C locale, which the program never changes.
    [year_text] is [%Y]: the C library prints a year below 1000 with or
    without leading zeros depending on the platform. *)
Definition strftime_BdY (year_text : Z -> string) (d : date) : string :=
  month_name (month d) ++ " " ++ two_digits (day d) ++ ", " ++ year_text (year d).

End Date.

(** ** The chatbot object *)

(** The reply object of the generative service; reading its [text] is an
    accessor of the service's library and can itself raise. *)
Record response : Type := mkresponse { text : result string }.

Definition nl : string := String (ascii_of_N 10) EmptyString.
Definition dquote : string := String (ascii_of_N 34) EmptyString.

Definition no_information : string := "No specific information found in the article.".

Section Chatbot.

(** The chat handle of the generative service: its state and what one
    [send_message] answers and leaves behind. *)
Variable chat_session : Type.
Variable send_message : chat_session -> string -> result response * chat_session.

(** How [%Y] prints a year. *)
Variable year_text : Z -> string.

Record ArticleChatbot : Type := mkbot {
  article_id : string;
  article_data : gmap string pyval;
  chat : chat_session;
  article_text : string;
  chunks : list string;
  conversation_history : list (string * string)
}.

Definition set_chat (self : ArticleChatbot) (c : chat_session) : ArticleChatbot :=
  mkbot (article_id self) (article_data self) c (article_text self)
        (chunks self) (conversation_history self).

Definition set_history (self : ArticleChatbot) (h : list (string * string)) : ArticleChatbot :=
  mkbot (article_id self) (article_data self) (chat self) (article_text self)
        (chunks self) h.

(** *** Relevance selector *)

(** The query's tokens, then the tokens of the last three turns. *)
Definition query_terms (history : list (string * string)) (query : string) : list string :=
  fold_left (fun terms (turn : string * string) => (terms ++ Py.split (Py.lower (snd turn)))%list)
            (Py.list_from history (-3))
            (Py.split (Py.lower query)).

(** [any(term in chunk_lower for term in query_terms)] *)
Definition matches (terms : list string) (chunk : string) : bool :=
  let chunk_lower := Py.lower chunk in
  existsb (fun term => Py.contains term chunk_lower) terms.

Definition clean (chunk : string) : string :=
  Py.strip (Py.replace "&quot;" dquote chunk).

(** The loop over [self.chunks]; returning [relevant'] is the [break]. *)
Fixpoint select_chunks (terms : list string) (top_k : Z)
         (relevant_chunks : list string) (cs : list string) : list string :=
  match cs with
  | [] => relevant_chunks
  | chunk :: rest =>
      if matches terms chunk then
        let relevant' := (relevant_chunks ++ [clean chunk])%list in
        if top_k <=? Z.of_nat (length relevant') then relevant'
        else select_chunks terms top_k relevant' rest
      else select_chunks terms top_k relevant_chunks rest
  end.

Definition get_relevant_context (self : ArticleChatbot) (query : string) (top_k : Z) : string :=
  let terms := query_terms (conversation_history self) query in
  let relevant_chunks := select_chunks terms top_k [] (chunks self) in
  match relevant_chunks with
  | [] => no_information
  | _ => Py.join " " relevant_chunks
  end.

(** *** Methods that change the object: state and exceptions *)

Definition M (A : Type) : Type := ArticleChatbot -> result A * ArticleChatbot.

#[local] Instance M_bind : MBind M := fun A B k m self =>
  match m self with
  | (Ok a, self') => k a self'
  | (Raise e, self') => (Raise e, self')
  end.

Definition get_self : M ArticleChatbot := fun self => (Ok self, self).

Definition lift {A : Type} (r : result A) : M A := fun self => (r, self).

(** [try: body except Exception: handler]; what [body] changed before it
    raised stays changed. *)
Definition try_except {A : Type} (body : M A) (handler : exn -> M A) : M A :=
  fun self =>
    match body self with
    | (Ok a, self') => (Ok a, self')
    | (Raise e, self') => handler e self'
    end.

(** [self.chat.send_message(prompt)] *)
Definition chat_send (prompt : string) : M response := fun self =>
  let (r, c) := send_message (chat self) prompt in (r, set_chat self c).

(** [self.conversation_history.append(turn)] *)
Definition history_append (turn : string * string) : M unit := fun self =>
  (Ok tt, set_history self (conversation_history self ++ [turn])%list).

(** *** Fallback responder *)

(** [x[:100] + '...' if len(x) > 100 else x] *)
Definition ellipsize (x : string) : string :=
  if 100 <? Py.len x then Py.slice x 0 100 ++ "..." else x.

(** A value that is not a string has no [len]. *)
Definition ellipsize_value (v : pyval) : result string :=
  rbind (len_value v) (fun _ =>
    match v with
    | PyStr x => Ok (ellipsize x)
    | _ => Raise TypeError
    end).

Definition strptime_value (v : pyval) : result Date.date :=
  match v with
  | PyStr s => Date.strptime_Ymd s
  | _ => Raise TypeError
  end.

Definition _handle_when_question (self : ArticleChatbot) : result string :=
  let body :=
    let date := dict_get (article_data self) "publication_date" (PyStr EmptyString) in
    if truthy date then
      rbind (strptime_value date) (fun date_obj =>
        let formatted_date := Date.strftime_BdY year_text date_obj in
        Ok ("Published on " ++ formatted_date))
    else Ok "Publication date not available" in
  match body with
  | Ok r => Ok r
  | Raise _ => Ok "Error retrieving publication date"
  end.

Definition _handle_what_question (self : ArticleChatbot) (question : string) : result string :=
  let context := get_relevant_context self question 3 in
  Ok (ellipsize context).

Definition _handle_who_question (self : ArticleChatbot) : result string :=
  if dict_in "author" (article_data self) then
    rbind (dict_getitem (article_data self) "author") (fun author =>
      Ok ("Author: " ++ format_value author))
  else Ok "Author: N/A".

Definition _handle_summary_question (self : ArticleChatbot) : result string :=
  let summary := dict_get (article_data self) "teaser_text" (PyStr "No summary available.") in
  ellipsize_value summary.

Definition _handle_general_question (self : ArticleChatbot) (question : string) : result string :=
  let context := get_relevant_context self question 3 in
  Ok (ellipsize context).

(** [any(word in user_input_lower for word in words)] *)
Definition any_word (words : list string) (user_input_lower : string) : bool :=
  existsb (fun word => Py.contains word user_input_lower) words.

Definition _handle_basic_response (self : ArticleChatbot) (user_input : string) : result string :=
  let user_input_lower := Py.lower user_input in
  if any_word ["what"; "tell me about"] user_input_lower then
    _handle_what_question self user_input
  else if any_word ["when"; "date"; "time"] user_input_lower then
    _handle_when_question self
  else if any_word ["who"; "author"] user_input_lower then
    _handle_who_question self
  else if any_word ["summary"; "overview"; "about"] user_input_lower then
    _handle_summary_question self
  else _handle_general_question self user_input.

(** *** Session *)

Definition render_turn (turn : string * string) : string :=
  fst turn ++ ": " ++ snd turn.

Definition chat_prompt (conversation_context context user_input : string) : string :=
  "You are a helpful AI assistant. You have access to both the article content and our conversation history."
  ++ nl ++ nl
  ++ "Previous conversation:" ++ nl
  ++ conversation_context ++ nl ++ nl
  ++ "Article content: " ++ context ++ nl ++ nl
  ++ "Question: " ++ user_input ++ nl ++ nl
  ++ "Please provide a brief, direct answer that:" ++ nl
  ++ "1. Answers the question in 1-2 sentences" ++ nl
  ++ "2. Uses any available information (article, conversation history, or general knowledge)" ++ nl
  ++ "3. Keeps the tone casual and natural" ++ nl
  ++ "4. Focuses on the most important information" ++ nl
  ++ "5. Don't mention where the information comes from" ++ nl ++ nl
  ++ "Your response:".

Definition chat_with_article (user_input : string) : M string :=
  try_except
    (self ← get_self;
     let context := get_relevant_context self user_input 3 in
     let conversation_context :=
       Py.join nl (map render_turn (Py.list_from (conversation_history self) (-3))) in
     let prompt := chat_prompt conversation_context context user_input in
     response ← chat_send prompt;
     _ ← history_append ("user", user_input);
     reply ← lift (text response);
     _ ← history_append ("assistant", reply);
     lift (text response))
    (fun _ => self ← get_self; lift (_handle_basic_response self user_input)).

Definition initial_prompt_text (context : string) : string :=
  "You are an AI assistant helping users understand this article. Here is the relevant content:"
  ++ nl ++ nl ++ context ++ nl ++ nl
  ++ "Please help answer questions about this article. Use both the article content and our conversation history to provide relevant answers.".

Definition _initialize_chat : M unit :=
  self ← get_self;
  let context := get_relevant_context self "What is this article about?" 3 in
  let initial_prompt := initial_prompt_text context in
  _ ← chat_send initial_prompt;
  history_append ("system", initial_prompt).

(** [__init__], from the row the article lookup returned and a fresh
    chat handle. *)
Definition init (id : string) (data : gmap string pyval) (c : chat_session)
  : result ArticleChatbot :=
  match dict_get data "full_text" (PyStr EmptyString) with
  | PyStr full_text =>
      rbind (chunk_text full_text 100) (fun cs =>
        match _initialize_chat (mkbot id data c full_text cs []) with
        | (Ok _, self) => Ok self
        | (Raise e, _) => Raise e
        end)
  | _ => Raise TypeError
  end.

End Chatbot.

Arguments mkbot {chat_session}.
Arguments article_id {chat_session}.
Arguments article_data {chat_session}.
Arguments chat {chat_session}.
Arguments article_text {chat_session}.
Arguments chunks {chat_session}.
Arguments conversation_history {chat_session}.
Arguments set_chat {chat_session}.
Arguments set_history {chat_session}.
Arguments get_relevant_context {chat_session}.
Arguments get_self {chat_session}.
Arguments lift {chat_session A}.
Arguments try_except {chat_session A}.
Arguments chat_send {chat_session}.
Arguments history_append {chat_session}.
Arguments _handle_when_question {chat_session}.
Arguments _handle_what_question {chat_session}.
Arguments _handle_who_question {chat_session}.
Arguments _handle_summary_question {chat_session}.
Arguments _handle_general_question {chat_session}.
Arguments _handle_basic_response {chat_session}.
Arguments chat_with_article {chat_session}.
Arguments _initialize_chat {chat_session}.
Arguments init {chat_session}.

(** ** Readings of the specification that the properties refer to *)

(** The context of a question when only the question's own tokens are
    searched for: the reading of the fallback's what-question path in which
    the recent turns add nothing. *)
Definition question_only_context (cs : list string) (question : string) (top_k : Z) : string :=
  match select_chunks (Py.split (Py.lower question)) top_k [] cs with
  | [] => no_information
  | relevant_chunks => Py.join " " relevant_chunks
  end.

(** [out] is [source] cut at 100 characters: the first 100 characters and
    an ellipsis when [source] is longer, [source] itself otherwise. *)
Definition truncation_of (source out : string) : Prop :=
  (100 < Py.len source -> out = Py.take 100 source ++ "...")
  /\ (Py.len source <= 100 -> out = source).

(** The prompt [chat_with_article] sends for a question, named for the
    statements about it. *)
Definition prompt_for {chat_session : Type} (self : ArticleChatbot chat_session)
           (question : string) : string :=
  chat_prompt (Py.join nl (map render_turn (Py.list_from (conversation_history self) (-3))))
              (get_relevant_context self question 3) question.

(** The session after a sequence of questions. *)
Definition ask_all {chat_session : Type}
           (send_message : chat_session -> string -> result response * chat_session)
           (year_text : Z -> string) (questions : list string)
           (self : ArticleChatbot chat_session) : ArticleChatbot chat_session :=
  fold_left (fun s q => snd (chat_with_article send_message year_text q s)) questions self.

(** ** Article lookup, listing and the web endpoints *)

(** [_get_article_data]: [rows] is what the parameterised query returns
    for the article id, or the exception it raises.  Every failure, the
    empty result included, leaves as a [ValueError]. *)
Definition _get_article_data (rows : result (list (gmap string pyval)))
  : result (gmap string pyval) :=
  let body :=
    rbind rows (fun results =>
      match results with
      | [] => Raise ValueError
      | row :: _ => Ok row
      end) in
  match body with
  | Ok article_data => Ok article_data
  | Raise _ => Raise ValueError
  end.

(** [ArticleChatbot(article_id)]: the lookup, then the rest of [__init__]
    on a fresh chat handle. *)
Definition create_chatbot {chat_session : Type}
           (send_message : chat_session -> string -> result response * chat_session)
           (run_query : string -> result (list (gmap string pyval)))
           (fresh : chat_session) (id : string) : result (ArticleChatbot chat_session) :=
  rbind (_get_article_data (run_query id)) (fun data => init send_message id data fresh).

(** One entry of the article list. *)
Record listing : Type := mklisting {
  listing_id : pyval;
  listing_title : pyval;
  listing_summary : pyval;
  listing_main : pyval;
  listing_sub : pyval
}.

(** The dictionary built for one row; [article_data['id']] raises on a row
    without the key. *)
Definition listing_of_row (article_data : gmap string pyval) : result listing :=
  rbind (dict_getitem article_data "id") (fun id =>
    Ok (mklisting id
          (dict_get article_data "title" (PyStr "Untitled"))
          (dict_get article_data "teaser_text" (PyStr "No summary available"))
          (dict_get article_data "gemini_category" (PyStr EmptyString))
          (dict_get article_data "gemini_sub_category" (PyStr EmptyString)))).

(** The loop over the rows, appending one entry per row. *)
Fixpoint listing_loop (articles : list listing) (results : list (gmap string pyval))
  : result (list listing) :=
  match results with
  | [] => Ok articles
  | row :: rest =>
      rbind (listing_of_row row) (fun entry => listing_loop (articles ++ [entry])%list rest)
  end.

(** [list_available_articles]: [rows] is what the listing query returns or
    raises.  Any exception ends in the empty list (the message printed to
    the console is not part of the value). *)
Definition list_available_articles (rows : result (list (gmap string pyval))) : list listing :=
  match rbind rows (listing_loop []) with
  | Ok articles => articles
  | Raise _ => []
  end.

(** What an endpoint hands back: a body, or the HTTP error 500 the
    [except] branch raises. *)
Inductive http (A : Type) : Type :=
  | Http200 (body : A)
  | Http500.

Arguments Http200 {A} body.
Arguments Http500 {A}.

Record chat_data : Type := mkchat_data {
  data_response : string;
  data_article_id : string;
  data_question : string
}.

(** [chat_get] and [chat_post] have the same body. *)
Definition chat_endpoint {chat_session : Type}
           (send_message : chat_session -> string -> result response * chat_session)
           (year_text : Z -> string)
           (run_query : string -> result (list (gmap string pyval)))
           (fresh : chat_session) (id question : string) : http chat_data :=
  match rbind (create_chatbot send_message run_query fresh id)
              (fun chatbot => fst (chat_with_article send_message year_text question chatbot)) with
  | Ok response => Http200 (mkchat_data response id question)
  | Raise _ => Http500
  end.

Record articles_data : Type := mkarticles_data {
  data_articles : list listing;
  data_message : option string
}.

(** [list_articles]: nothing in its [try] block can raise, since
    [list_available_articles] catches everything itself. *)
Definition list_articles (rows : result (list (gmap string pyval))) : http articles_data :=
  let articles := list_available_articles rows in
  match articles with
  | [] => Http200 (mkarticles_data [] (Some "No articles found"))
  | _ => Http200 (mkarticles_data articles None)
  end.

(** ** Dates as the article store writes them *)

Definition four_digits (y : Z) : string :=
  String (Py.digit_char (y / 1000))
    (String (Py.digit_char (y / 100 mod 10))
       (String (Py.digit_char (y / 10 mod 10))
          (String (Py.digit_char (y mod 10)) EmptyString))).

(** [YYYY-MM-DD] *)
Definition iso_date (d : Date.date) : string :=
  four_digits (Date.year d) ++ "-" ++ Date.two_digits (Date.month d)
  ++ "-" ++ Date.two_digits (Date.day d).

(** The priming prompt: the ledger is still empty when its context is
    selected, so only the words of the fixed question are searched for. *)
Definition priming_prompt (cs : list string) : string :=
  initial_prompt_text (question_only_context cs "What is this article about?" 3).

(** The closing sentence of the priming prompt. *)
Definition priming_closing : string :=
  "Please help answer questions about this article. Use both the article content and our conversation history to provide relevant answers.".

(** ** Articles, services and sessions used in the examples *)

Fixpoint repeat_string (s : string) (n : nat) : string :=
  match n with
  | O => EmptyString
  | S n' => s ++ repeat_string s n'
  end.

Definition sky_article : gmap string pyval :=
  <["id" := PyStr "a1"]> (
  <["full_text" := PyStr (repeat_string "The sky is blue. " 10)]> (
  <["teaser_text" := PyStr "A short piece about sky color."]> (
  <["author" := PyStr "Jane Doe"]> ∅))).

(** A row as the article query selects it: no author, no date. *)
Definition plain_article : gmap string pyval :=
  <["id" := PyStr "a2"]> (
  <["title" := PyStr "Sky"]> (
  <["full_text" := PyStr "The sky is blue."]> (
  <["teaser_text" := PyStr "A short piece about sky color."]> ∅))).

(** An article whose text shares no word with any prompt or question. *)
Definition digits_article : gmap string pyval :=
  <["id" := PyStr "a3"]> (<["full_text" := PyStr "3.14159 2.71828"]> ∅).

(** The same row with a stored publication date or author. *)
Definition dated_article (date : pyval) : gmap string pyval :=
  <["publication_date" := date]> plain_article.

Definition authored_article (author : pyval) : gmap string pyval :=
  <["author" := author]> plain_article.

(** The chat handle counts the messages it was sent.  The first message,
    the priming one of [__init__], is answered by each of these services. *)
Definition primed (later : result response) (sent : nat) (prompt : string)
  : result response * nat :=
  match sent with
  | O => (Ok (mkresponse (Ok "Understood.")), 1%nat)
  | S _ => (later, S sent)
  end.

(** The service is unreachable after the priming message. *)
Definition service_down : nat -> string -> result response * nat :=
  primed (Raise ServiceError).

(** The service answers, but its reply carries no text (a blocked reply):
    reading [response.text] raises. *)
Definition service_blocked : nat -> string -> result response * nat :=
  primed (Ok (mkresponse (Raise ValueError))).

(** The service answers every question with the same sentence. *)
Definition service_up : nat -> string -> result response * nat :=
  primed (Ok (mkresponse (Ok "It is about the sky."))).

(** The service answers every question with one short word. *)
Definition service_terse : nat -> string -> result response * nat :=
  primed (Ok (mkresponse (Ok "Hmm."))).

(** A session as [__init__] leaves it, when it succeeds. *)
Definition session_of (send_message : nat -> string -> result response * nat)
           (data : gmap string pyval) : ArticleChatbot nat :=
  match init send_message "a" data O with
  | Ok self => self
  | Raise _ => mkbot "a" data O EmptyString [] []
  end.

(** A row whose teaser is null in the store. *)
Definition null_teaser_article : gmap string pyval :=
  <["teaser_text" := PyNone]> plain_article.


Definition textless_article : gmap string pyval :=
  <["id" := PyStr "a4"]> (<["title" := PyStr "Untitled draft"]> ∅).


(** The role of a turn recorded by a question. *)
Definition exchange_role (turn : string * string) : Prop :=
  fst turn = "user" \/ fst turn = "assistant".

(** An article store holding one article, and one that cannot be reached. *)
Definition one_article_store (id : string) : result (list (gmap string pyval)) :=
  if String.eqb id "a1" then Ok [sky_article] else Ok [].

Definition unreachable_store (id : string) : result (list (gmap string pyval)) :=
  Raise ServiceError.

(** A row that lost its id column. *)
Definition row_without_id : gmap string pyval :=
  <["title" := PyStr "Orphan"]> ∅.

(** The entry [list_available_articles] builds for a row that has an id. *)
Definition entry_of (row : gmap string pyval) : listing :=
  mklisting (dict_get row "id" PyNone)
            (dict_get row "title" (PyStr "Untitled"))
            (dict_get row "teaser_text" (PyStr "No summary available"))
            (dict_get row "gemini_category" (PyStr EmptyString))
            (dict_get row "gemini_sub_category" (PyStr EmptyString)).

(** * Properties *)

(** ** The built-ins on concrete inputs *)

Example chunk_text_ex1 :
  chunk_text "The sky is blue." 5 = Ok ["The s"; "ky is"; " blue"; "."].
Proof. reflexivity. Qed.

Example split_ex1 : Py.split "  What is  this? " = ["What"; "is"; "this?"].
Proof. reflexivity. Qed.

Example strip_ex1 : Py.strip "  a b  " = "a b".
Proof. reflexivity. Qed.

Example replace_ex1 :
  Py.replace "&quot;" "'" "a&quot;&quot;b&&quot;quot;" = "a''b&'quot;".
Proof. reflexivity. Qed.

Example str_of_int_ex1 :
  map Py.str_of_int [0; 7; 10; 2024; -35] = ["0"; "7"; "10"; "2024"; "-35"].
Proof. reflexivity. Qed.

Example strptime_ex1 :
  map Date.strptime_Ymd ["2024-03-05"; "2024-3-5"; "2024-1-35"; "2023-02-29"; "0000-01-01"]
  = [Ok (Date.mkdate 2024 3 5); Ok (Date.mkdate 2024 3 5);
     Raise ValueError; Raise ValueError; Raise ValueError].
Proof. reflexivity. Qed.

(** ** Strings: prefixes, suffixes and slices *)

Section StringFacts.

Local Open Scope nat_scope.

Lemma length_take (n : nat) (s : string) :
  String.length (Py.take n s) = Nat.min n (String.length s).
Proof.
  revert s; induction n as [|n IH]; intros [|c s]; simpl; auto.
Qed.

Lemma length_drop (n : nat) (s : string) :
  String.length (Py.drop n s) = String.length s - n.
Proof.
  revert s; induction n as [|n IH]; intros [|c s]; simpl; auto.
Qed.

Lemma take_all (n : nat) (s : string) :
  String.length s <= n -> Py.take n s = s.
Proof.
  revert s; induction n as [|n IH]; intros [|c s]; simpl; intros H;
    try reflexivity; try lia.
  f_equal; apply IH; lia.
Qed.

Lemma take_min (n : nat) (s : string) :
  Py.take (Nat.min n (String.length s)) s = Py.take n s.
Proof.
  revert s; induction n as [|n IH]; intros [|c s]; simpl; try reflexivity.
  f_equal; apply IH.
Qed.

Lemma drop_drop (a b : nat) (s : string) :
  Py.drop a (Py.drop b s) = Py.drop (b + a) s.
Proof.
  revert s; induction b as [|b IH]; intros s; simpl; [reflexivity|].
  destruct s as [|c s]; [destruct a; reflexivity | apply IH].
Qed.

Lemma str_app_cons (c : ascii) (s t : string) :
  (String c s ++ t)%string = String c (s ++ t).
Proof. reflexivity. Qed.

Lemma str_app_nil_l (t : string) : (EmptyString ++ t)%string = t.
Proof. reflexivity. Qed.

Lemma str_app_nil_r (s : string) : (s ++ EmptyString)%string = s.
Proof.
  induction s as [|c s IH]; [reflexivity|].
  rewrite str_app_cons, IH; reflexivity.
Qed.

Lemma str_length_app (s t : string) :
  String.length (s ++ t) = String.length s + String.length t.
Proof.
  induction s as [|c s IH]; [reflexivity|].
  rewrite str_app_cons; simpl; rewrite IH; reflexivity.
Qed.

Lemma take_add (a b : nat) (s : string) :
  Py.take (a + b) s = (Py.take a s ++ Py.take b (Py.drop a s))%string.
Proof.
  revert s; induction a as [|a IH]; intros s; simpl.
  - destruct b, s; reflexivity.
  - destruct s as [|c s]; simpl; [destruct b; reflexivity|].
    rewrite str_app_cons; f_equal; apply IH.
Qed.

(** A slice with both bounds inside the text is a prefix of a suffix. *)
Lemma slice_take_drop (s : string) (i n : nat) :
  i <= String.length s ->
  Py.slice s (Z.of_nat i) (Z.of_nat i + Z.of_nat n) = Py.take n (Py.drop i s).
Proof.
  intros Hi. unfold Py.slice, Py.clamp_index, Py.len.
  destruct (Z.ltb_spec (Z.of_nat i) 0) as [?|_]; [lia|].
  destruct (Z.ltb_spec (Z.of_nat i + Z.of_nat n) 0) as [?|_]; [lia|].
  replace (Z.to_nat (Z.of_nat i `min` Z.of_nat (String.length s))) with i by lia.
  replace (Z.to_nat (_ - _))
    with (Nat.min n (String.length (Py.drop i s)))
    by (rewrite length_drop; lia).
  apply take_min.
Qed.

End StringFacts.

(** ** Segmenter *)

Section Segmenter.

Lemma range_length_bounds (L cs : Z) :
  0 <= L -> 0 < cs ->
  0 <= Py.range_length 0 L cs
  /\ (Py.range_length 0 L cs - 1) * cs < L
  /\ L <= Py.range_length 0 L cs * cs.
Proof.
  intros HL Hcs. unfold Py.range_length.
  destruct (Z.ltb_spec 0 cs) as [_|?]; [|lia].
  destruct (Z.leb_spec L 0) as [?|Hpos]; [lia|].
  rewrite Z.abs_eq by lia.
  replace (L - 0 - 1) with (L - 1) by lia.
  pose proof (Z.div_mod (L - 1) cs ltac:(lia)) as Hdm.
  pose proof (Z.mod_pos_bound (L - 1) cs Hcs) as Hm.
  pose proof (Z.div_pos (L - 1) cs ltac:(lia) Hcs) as Hq.
  nia.
Qed.

(** For a positive size the comprehension is the list of the consecutive
    windows of that size. *)
Lemma chunk_text_windows (s : string) (chunk_size : Z) :
  0 < chunk_size ->
  chunk_text s chunk_size =
  Ok (map (fun k : nat => Py.take (Z.to_nat chunk_size) (Py.drop (k * Z.to_nat chunk_size) s))
          (seq 0 (Z.to_nat (Py.range_length 0 (Py.len s) chunk_size)))).
Proof.
  intros Hcs. unfold chunk_text, Py.range.
  destruct (Z.eqb_spec chunk_size 0) as [?|_]; [lia|].
  simpl. f_equal. rewrite map_map. apply map_ext_in.
  intros k Hk. apply in_seq in Hk.
  destruct (range_length_bounds (Py.len s) chunk_size) as (HN & Hlo & Hhi);
    [unfold Py.len; lia | lia |].
  assert (Hin : (k * Z.to_nat chunk_size <= String.length s)%nat)
    by (unfold Py.len in *; nia).
  rewrite <- (slice_take_drop s _ _ Hin).
  f_equal; nia.
Qed.

Lemma concat_windows (c : nat) (s : string) (n k : nat) :
  Py.concat (map (fun j : nat => Py.take c (Py.drop (j * c) s)) (seq k n))
  = Py.take (n * c) (Py.drop (k * c) s).
Proof.
  revert k; induction n as [|n IH]; intros k; [reflexivity|].
  simpl seq. simpl map. simpl Py.concat. rewrite IH.
  replace (S n * c)%nat with (c + n * c)%nat by lia.
  rewrite take_add, drop_drop. do 3 f_equal. lia.
Qed.

Lemma window_length (c : nat) (s : string) (j : nat) :
  String.length (Py.take c (Py.drop (j * c) s))
  = Nat.min c (String.length s - j * c).
Proof. rewrite length_take, length_drop. reflexivity. Qed.

End Segmenter.

(** C3.  For a positive [chunk_size], [chunk_text] returns a list of
    fragments whose concatenation in order is the text; every fragment
    before the last has exactly [chunk_size] characters, the last one has
    between 1 and [chunk_size]; the empty text gives the empty list. *)
Theorem chunk_text_partition (s : string) (chunk_size : Z) :
  0 < chunk_size ->
  exists fragments : list string,
    chunk_text s chunk_size = Ok fragments
    /\ Py.concat fragments = s
    /\ (forall (i : nat) (f : string),
          fragments !! i = Some f -> (S i < length fragments)%nat ->
          Py.len f = chunk_size)
    /\ (forall f : string,
          last fragments = Some f -> 0 < Py.len f /\ Py.len f <= chunk_size)
    /\ chunk_text EmptyString chunk_size = Ok [].
Proof.
  intros Hcs.
  destruct (range_length_bounds (Py.len s) chunk_size) as (HN & Hlo & Hhi);
    [unfold Py.len; lia | lia |].
  set (c := Z.to_nat chunk_size) in *.
  set (n := Z.to_nat (Py.range_length 0 (Py.len s) chunk_size)) in *.
  exists (map (fun k : nat => Py.take c (Py.drop (k * c) s)) (seq 0 n)).
  assert (Hlen : length (map (fun k : nat => Py.take c (Py.drop (k * c) s)) (seq 0 n)) = n)
    by (rewrite length_map, length_seq; reflexivity).
  assert (Hget : forall (i : nat) (f : string),
             map (fun k : nat => Py.take c (Py.drop (k * c) s)) (seq 0 n) !! i = Some f ->
             (i < n)%nat /\ f = Py.take c (Py.drop (i * c) s)).
  { intros i f Hi. rewrite list_lookup_fmap in Hi.
    destruct (seq 0 n !! i) as [k|] eqn:Hk; [|discriminate].
    apply lookup_seq in Hk as [-> ?]. simpl in Hi. split; [lia | congruence]. }
  split; [apply chunk_text_windows; assumption|].
  split.
  { rewrite concat_windows. simpl Py.drop. apply take_all.
    unfold Py.len in *. subst c n. nia. }
  split.
  { intros i f Hi Hlt. rewrite Hlen in Hlt.
    apply Hget in Hi as [_ ->]. unfold Py.len. rewrite window_length.
    unfold Py.len in *. subst c n. nia. }
  split.
  { intros f Hf. rewrite last_lookup, Hlen in Hf.
    apply Hget in Hf as [Hi ->]. unfold Py.len. rewrite window_length.
    unfold Py.len in *. subst c n. nia. }
  rewrite chunk_text_windows by assumption.
  unfold Py.range_length. destruct (0 <? chunk_size); reflexivity.
Qed.

Lemma chunk_text_partition_witness :
  exists fragments : list string,
    chunk_text "The sky is blue." 5 = Ok fragments
    /\ Py.concat fragments = "The sky is blue."
    /\ (forall (i : nat) (f : string),
          fragments !! i = Some f -> (S i < length fragments)%nat ->
          Py.len f = 5)
    /\ (forall f : string,
          last fragments = Some f -> 0 < Py.len f /\ Py.len f <= 5)
    /\ chunk_text EmptyString 5 = Ok [].
Proof. apply (chunk_text_partition "The sky is blue." 5). lia. Defined.

(** C10.  Outside [chunk_size > 0] the segmenter does not partition the
    text: with size 0 the call raises (the step of the index range is
    zero), with a negative size it returns the empty list whatever the
    text, so a non-empty text is not the concatenation of its fragments;
    with a positive size the call always returns. *)
Theorem chunk_text_outside_precondition :
  (forall text : string, chunk_text text 0 = Raise ValueError)
  /\ (forall (text : string) (chunk_size : Z),
        chunk_size < 0 -> chunk_text text chunk_size = Ok [])
  /\ (forall (text : string) (chunk_size : Z),
        chunk_size < 0 -> text <> EmptyString ->
        exists fragments : list string,
          chunk_text text chunk_size = Ok fragments /\ Py.concat fragments <> text)
  /\ (forall (text : string) (chunk_size : Z),
        0 < chunk_size -> is_ok (chunk_text text chunk_size) = true).
Proof.
  assert (Hneg : forall (text : string) (chunk_size : Z),
             chunk_size < 0 -> chunk_text text chunk_size = Ok []).
  { intros text cs Hcs. unfold chunk_text, Py.range, Py.range_length.
    destruct (Z.eqb_spec cs 0) as [?|_]; [lia|].
    destruct (Z.ltb_spec 0 cs) as [?|_]; [lia|].
    destruct (Z.leb_spec 0 (Py.len text)) as [_|?]; [reflexivity|].
    unfold Py.len in *; lia. }
  split; [intros text; reflexivity|].
  split; [exact Hneg|].
  split.
  - intros text cs Hcs Hne. exists []. split; [apply Hneg; assumption|].
    simpl. congruence.
  - intros text cs Hcs. rewrite chunk_text_windows by assumption. reflexivity.
Qed.

Lemma chunk_text_outside_precondition_witness :
  chunk_text "abc" 0 = Raise ValueError
  /\ chunk_text "abc" (-2) = Ok []
  /\ (exists fragments : list string,
        chunk_text "abc" (-2) = Ok fragments /\ Py.concat fragments <> "abc")
  /\ is_ok (chunk_text "abc" 2) = true.
Proof.
  destruct chunk_text_outside_precondition as (H0 & Hneg & Hcat & Hpos).
  split; [apply H0|].
  split; [apply Hneg; lia|].
  split; [apply Hcat; [lia | discriminate] | apply Hpos; lia].
Defined.

(** ** Relevance selector *)

Section Retrieval.

Context {chat_session : Type}.
Implicit Types (self : ArticleChatbot chat_session) (terms cs acc : list string).

(** The accumulating loop of [query_terms] appends the turns' tokens in
    order. *)
Lemma fold_left_extend (f : string * string -> list string)
      (turns : list (string * string)) (init : list string) :
  fold_left (fun acc t => (acc ++ f t)%list) turns init
  = (init ++ flat_map f turns)%list.
Proof.
  revert init; induction turns as [|t turns IH]; intros init; simpl.
  - rewrite app_nil_r; reflexivity.
  - rewrite IH, <- app_assoc; reflexivity.
Qed.

Lemma query_terms_eq (history : list (string * string)) (query : string) :
  query_terms history query
  = (Py.split (Py.lower query)
     ++ flat_map (fun t : string * string => Py.split (Py.lower (snd t)))
                 (Py.list_from history (-3)))%list.
Proof. unfold query_terms. apply fold_left_extend. Qed.

(** A fragment matches exactly when one of the terms occurs in its
    lower-cased text. *)
Lemma matches_spec terms (chunk : string) :
  matches terms chunk = true
  <-> exists term : string, In term terms /\ Py.contains term (Py.lower chunk) = true.
Proof. unfold matches. apply existsb_exists. Qed.

(** The loop with its early exit keeps the fragments already selected
    and adds the next matching ones, in document order, until the
    result holds [max 1 top_k] of them. *)
Lemma select_chunks_acc terms (top_k : Z) cs acc :
  (length acc < Z.to_nat (Z.max 1 top_k))%nat ->
  select_chunks terms top_k acc cs
  = (acc ++ firstn (Z.to_nat (Z.max 1 top_k) - length acc)
                   (map clean (List.filter (matches terms) cs)))%list.
Proof.
  revert acc; induction cs as [|chunk rest IH]; intros acc Hacc; simpl.
  - rewrite firstn_nil, app_nil_r; reflexivity.
  - destruct (matches terms chunk) eqn:Hm; [|apply IH; assumption].
    rewrite length_app; simpl length. simpl map.
    destruct (Z.leb_spec top_k (Z.of_nat (length acc + 1))) as [Hstop|Hgo].
    + replace (Z.to_nat (Z.max 1 top_k) - length acc)%nat with 1%nat by lia.
      reflexivity.
    + rewrite IH by (rewrite length_app; simpl; lia).
      rewrite length_app; simpl length.
      replace (Z.to_nat (Z.max 1 top_k) - length acc)%nat
        with (S (Z.to_nat (Z.max 1 top_k) - (length acc + 1)))%nat by lia.
      simpl. rewrite <- app_assoc. reflexivity.
Qed.

Lemma select_chunks_firstn terms (top_k : Z) cs :
  select_chunks terms top_k [] cs
  = firstn (Z.to_nat (Z.max 1 top_k)) (map clean (List.filter (matches terms) cs)).
Proof.
  rewrite select_chunks_acc by (simpl; lia).
  simpl. rewrite Nat.sub_0_r. reflexivity.
Qed.

(** The matching fragments of a list whose first match is at index [i]. *)
Lemma filter_first_match terms cs (i : nat) (chunk : string) :
  cs !! i = Some chunk ->
  matches terms chunk = true ->
  (forall (j : nat) (c : string), (j < i)%nat -> cs !! j = Some c -> matches terms c = false) ->
  exists later : list string, List.filter (matches terms) cs = chunk :: later.
Proof.
  revert i; induction cs as [|c0 rest IH]; intros i Hi Hm Hfirst; [discriminate|].
  destruct i as [|i]; simpl in *.
  - injection Hi as ->. rewrite Hm. eexists; reflexivity.
  - rewrite (Hfirst 0%nat c0) by (lia || reflexivity).
    apply (IH i); auto.
    intros j c Hj Hc. apply (Hfirst (S j) c); [lia | exact Hc].
Qed.

Lemma select_chunks_nil terms (top_k : Z) cs :
  (forall chunk : string, In chunk cs -> matches terms chunk = false) ->
  select_chunks terms top_k [] cs = [].
Proof.
  intros Hnone. rewrite select_chunks_firstn.
  replace (List.filter (matches terms) cs) with (@nil string);
    [apply firstn_nil|].
  symmetry. induction cs as [|c rest IH]; [reflexivity|]. simpl.
  rewrite (Hnone c) by (left; reflexivity).
  apply IH. intros chunk Hin. apply Hnone. right; assumption.
Qed.

End Retrieval.

Section RetrievalChecks.

Context {chat_session : Type}.

(** A boolean check that no fragment matches. *)
Lemma no_match_check (terms cs : list string) :
  forallb (fun chunk => negb (matches terms chunk)) cs = true ->
  forall chunk term : string,
    In chunk cs -> In term terms -> Py.contains term (Py.lower chunk) = false.
Proof.
  intros Hall chunk term Hc Ht.
  rewrite forallb_forall in Hall. specialize (Hall chunk Hc).
  apply negb_true_iff in Hall.
  destruct (Py.contains term (Py.lower chunk)) eqn:Hcont; [|reflexivity].
  assert (matches terms chunk = true) by (apply matches_spec; eauto).
  congruence.
Qed.

End RetrievalChecks.

(** C5, amended to [top_k >= 1].  The selector reads the fragments in
    document order; a fragment matches exactly when one of the terms occurs
    in its lower-cased text; the fragments selected are the first [top_k]
    matching ones, so at most [top_k] of them contribute; and when the
    matching fragment of lowest index is fragment [i], the joined context
    starts with the cleaned text of fragment [i]. *)
Theorem select_context_first_matches
        {chat_session : Type} (self : ArticleChatbot chat_session)
        (query : string) (top_k : Z) :
  1 <= top_k ->
  let terms := query_terms (conversation_history self) query in
  let selected := select_chunks terms top_k [] (chunks self) in
  (forall chunk : string,
      matches terms chunk = true
      <-> exists term : string, In term terms /\ Py.contains term (Py.lower chunk) = true)
  /\ selected = map clean (firstn (Z.to_nat top_k) (List.filter (matches terms) (chunks self)))
  /\ Z.of_nat (length selected) <= top_k
  /\ (forall (i : nat) (chunk : string),
        chunks self !! i = Some chunk ->
        matches terms chunk = true ->
        (forall (j : nat) (c : string),
            (j < i)%nat -> chunks self !! j = Some c -> matches terms c = false) ->
        exists others : list string,
          selected = clean chunk :: others
          /\ get_relevant_context self query top_k = Py.join " " (clean chunk :: others)).
Proof.
  intros Hk terms selected.
  assert (Hsel : selected
                 = map clean (firstn (Z.to_nat top_k)
                                     (List.filter (matches terms) (chunks self)))).
  { subst selected. rewrite select_chunks_firstn, firstn_map.
    replace (Z.max 1 top_k) with top_k by lia. reflexivity. }
  split; [intros chunk; apply matches_spec|].
  split; [exact Hsel|].
  split.
  { rewrite Hsel, length_map, length_firstn. lia. }
  intros i chunk Hi Hm Hfirst.
  destruct (filter_first_match terms (chunks self) i chunk Hi Hm Hfirst) as [later Hlater].
  assert (Hhead : selected
                  = clean chunk :: map clean (firstn (Nat.pred (Z.to_nat top_k)) later)).
  { rewrite Hsel, Hlater.
    replace (Z.to_nat top_k) with (S (Nat.pred (Z.to_nat top_k))) at 1 by lia.
    reflexivity. }
  eexists. split; [exact Hhead|].
  unfold get_relevant_context. fold terms. fold selected. rewrite Hhead. reflexivity.
Qed.

Lemma select_context_first_matches_witness :
  1 <= 3
  /\ Z.of_nat (length (select_chunks
                         (query_terms (conversation_history (session_of service_up sky_article))
                                      "Is the sky blue?")
                         3 [] (chunks (session_of service_up sky_article)))) <= 3.
Proof.
  split; [lia|].
  apply (select_context_first_matches (session_of service_up sky_article)
                                      "Is the sky blue?" 3).
  lia.
Defined.

(** C5 as stated fails for [top_k = 0]: the length test comes after the
    fragment is appended, so one fragment is selected and returned. *)
Lemma select_context_top_k_zero :
  select_chunks (query_terms (conversation_history (session_of service_up plain_article)) "sky")
                0 [] (chunks (session_of service_up plain_article))
  = ["The sky is blue."]
  /\ get_relevant_context (session_of service_up plain_article) "sky" 0 = "The sky is blue."
  /\ ~ (Z.of_nat (length (select_chunks
                            (query_terms (conversation_history (session_of service_up plain_article)) "sky")
                            0 [] (chunks (session_of service_up plain_article)))) <= 0).
Proof.
  split; [vm_compute; reflexivity|].
  split; [vm_compute; reflexivity|].
  vm_compute. intros H; apply H; reflexivity.
Qed.

(** C6.  When no fragment's lower-cased text contains a term of the
    query or of the recent turns, the selector returns the fixed
    sentence, whatever [top_k] is. *)
Theorem no_match_sentence
        {chat_session : Type} (self : ArticleChatbot chat_session)
        (query : string) (top_k : Z) :
  (forall chunk term : string,
      In chunk (chunks self) ->
      In term (query_terms (conversation_history self) query) ->
      Py.contains term (Py.lower chunk) = false) ->
  get_relevant_context self query top_k = "No specific information found in the article.".
Proof.
  intros Hnone. unfold get_relevant_context.
  rewrite select_chunks_nil; [reflexivity|].
  intros chunk Hin.
  destruct (matches (query_terms (conversation_history self) query) chunk) eqn:Hm;
    [|reflexivity].
  apply matches_spec in Hm as (term & Ht & Hc).
  rewrite (Hnone chunk term Hin Ht) in Hc. discriminate.
Qed.

Lemma no_match_sentence_witness :
  get_relevant_context (session_of service_up digits_article) "What color is it?" 3
  = "No specific information found in the article.".
Proof.
  apply (no_match_sentence (session_of service_up digits_article) "What color is it?" 3).
  apply no_match_check. vm_compute. reflexivity.
Defined.

(** ** Fallback responder *)

Section Fallback.

Context {chat_session : Type}.
Variable year_text : Z -> string.
Implicit Types (self : ArticleChatbot chat_session) (question : string).

Lemma slice_prefix (x : string) (n : nat) :
  Py.slice x 0 (Z.of_nat n) = Py.take n x.
Proof. exact (slice_take_drop x 0 n ltac:(lia)). Qed.

Lemma ellipsize_truncation (x : string) : truncation_of x (ellipsize x).
Proof.
  unfold truncation_of, ellipsize. split; intros H.
  - destruct (Z.ltb_spec 100 (Py.len x)) as [_|?]; [|lia].
    replace (Py.slice x 0 100) with (Py.take 100 x)
      by (symmetry; exact (slice_prefix x 100)).
    reflexivity.
  - destruct (Z.ltb_spec 100 (Py.len x)) as [?|_]; [lia|reflexivity].
Qed.

(** The five branches of the dispatch, each under the failure of the
    tests before it. *)
Lemma dispatch_what self question :
  any_word ["what"; "tell me about"] (Py.lower question) = true ->
  _handle_basic_response year_text self question = _handle_what_question self question.
Proof. intros H. unfold _handle_basic_response. rewrite H. reflexivity. Qed.

Lemma dispatch_when self question :
  any_word ["what"; "tell me about"] (Py.lower question) = false ->
  any_word ["when"; "date"; "time"] (Py.lower question) = true ->
  _handle_basic_response year_text self question = _handle_when_question year_text self.
Proof. intros H1 H2. unfold _handle_basic_response. rewrite H1, H2. reflexivity. Qed.

Lemma dispatch_who self question :
  any_word ["what"; "tell me about"] (Py.lower question) = false ->
  any_word ["when"; "date"; "time"] (Py.lower question) = false ->
  any_word ["who"; "author"] (Py.lower question) = true ->
  _handle_basic_response year_text self question = _handle_who_question self.
Proof.
  intros H1 H2 H3. unfold _handle_basic_response. rewrite H1, H2, H3. reflexivity.
Qed.

Lemma dispatch_summary self question :
  any_word ["what"; "tell me about"] (Py.lower question) = false ->
  any_word ["when"; "date"; "time"] (Py.lower question) = false ->
  any_word ["who"; "author"] (Py.lower question) = false ->
  any_word ["summary"; "overview"; "about"] (Py.lower question) = true ->
  _handle_basic_response year_text self question = _handle_summary_question self.
Proof.
  intros H1 H2 H3 H4. unfold _handle_basic_response.
  rewrite H1, H2, H3, H4. reflexivity.
Qed.

Lemma dispatch_general self question :
  any_word ["what"; "tell me about"] (Py.lower question) = false ->
  any_word ["when"; "date"; "time"] (Py.lower question) = false ->
  any_word ["who"; "author"] (Py.lower question) = false ->
  any_word ["summary"; "overview"; "about"] (Py.lower question) = false ->
  _handle_basic_response year_text self question = _handle_general_question self question.
Proof.
  intros H1 H2 H3 H4. unfold _handle_basic_response.
  rewrite H1, H2, H3, H4. reflexivity.
Qed.

(** A word of a pattern list that occurs in the question makes the
    pattern's test succeed. *)
Lemma any_word_intro (words : list string) (word lowered : string) :
  In word words -> Py.contains word lowered = true -> any_word words lowered = true.
Proof. intros Hin Hc. unfold any_word. apply existsb_exists. eauto. Qed.

(** The selector reads the ledger only through its last three turns. *)
Lemma get_relevant_context_recent self self' (query : string) (top_k : Z) :
  chunks self' = chunks self ->
  Py.list_from (conversation_history self') (-3)
  = Py.list_from (conversation_history self) (-3) ->
  get_relevant_context self' query top_k = get_relevant_context self query top_k.
Proof.
  intros Hc Hh. unfold get_relevant_context.
  rewrite !query_terms_eq, Hc, Hh. reflexivity.
Qed.

Lemma get_relevant_context_empty_ledger self (query : string) (top_k : Z) :
  conversation_history self = [] ->
  get_relevant_context self query top_k = question_only_context (chunks self) query top_k.
Proof.
  intros Hh. unfold get_relevant_context, question_only_context.
  replace (query_terms (conversation_history self) query)
    with (Py.split (Py.lower query)).
  - destruct (select_chunks _ _ _ _); reflexivity.
  - rewrite query_terms_eq, Hh. simpl. rewrite app_nil_r. reflexivity.
Qed.

End Fallback.


(** C1 as stated fails: on a session that has only been primed, the
    answer to a what-question is found through the words of the priming
    turn, and after two exchanges on the same article, when the priming
    turn has left the last three, the answer is a different one. *)
Lemma what_question_reads_ledger :
  _handle_basic_response Py.str_of_int (session_of service_down plain_article) "what color?"
  = Ok "The sky is blue."
  /\ ellipsize (question_only_context (chunks (session_of service_down plain_article))
                                      "what color?" 3)
     = "No specific information found in the article."
  /\ _handle_basic_response Py.str_of_int (session_of service_down plain_article) "what color?"
     <> Ok (ellipsize (question_only_context (chunks (session_of service_down plain_article))
                                             "what color?" 3))
  /\ chunks (ask_all service_terse Py.str_of_int ["Colour?"; "Colour?"]
                     (session_of service_terse plain_article))
     = chunks (session_of service_down plain_article)
  /\ _handle_basic_response Py.str_of_int
       (ask_all service_terse Py.str_of_int ["Colour?"; "Colour?"]
                (session_of service_terse plain_article))
       "what color?"
     = Ok "No specific information found in the article."
  /\ _handle_basic_response Py.str_of_int
       (ask_all service_terse Py.str_of_int ["Colour?"; "Colour?"]
                (session_of service_terse plain_article))
       "what color?"
     <> _handle_basic_response Py.str_of_int (session_of service_down plain_article) "what color?".
Proof.
  split; [vm_compute; reflexivity|].
  split; [vm_compute; reflexivity|].
  split; [vm_compute; discriminate|].
  split; [vm_compute; reflexivity|].
  split; [vm_compute; reflexivity|].
  vm_compute. discriminate.
Qed.

(** C1, amended.  For a question containing "what" or "tell me about" the
    fallback answer is the selector's context for the question, cut at 100
    characters, where the terms searched for are the question's tokens
    followed by the tokens of the last three turns of the ledger.  The
    answer depends on the ledger through those three turns only, and it is
    the question-only context when the ledger is empty. *)
Theorem what_question_uses_recent_turns
        {chat_session : Type} (year_text : Z -> string)
        (self : ArticleChatbot chat_session) (question : string) :
  any_word ["what"; "tell me about"] (Py.lower question) = true ->
  _handle_basic_response year_text self question
  = Ok (ellipsize (get_relevant_context self question 3))
  /\ query_terms (conversation_history self) question
     = (Py.split (Py.lower question)
        ++ flat_map (fun t : string * string => Py.split (Py.lower (snd t)))
                    (Py.list_from (conversation_history self) (-3)))%list
  /\ (forall self' : ArticleChatbot chat_session,
        chunks self' = chunks self ->
        Py.list_from (conversation_history self') (-3)
        = Py.list_from (conversation_history self) (-3) ->
        _handle_basic_response year_text self' question
        = _handle_basic_response year_text self question)
  /\ (conversation_history self = [] ->
      _handle_basic_response year_text self question
      = Ok (ellipsize (question_only_context (chunks self) question 3))).
Proof.
  intros Hwhat.
  split; [rewrite dispatch_what by assumption; reflexivity|].
  split; [apply query_terms_eq|].
  split.
  - intros self' Hc Hh. rewrite !dispatch_what by assumption.
    unfold _handle_what_question.
    rewrite (get_relevant_context_recent self self') by assumption. reflexivity.
  - intros Hh. rewrite dispatch_what by assumption. unfold _handle_what_question.
    rewrite get_relevant_context_empty_ledger by assumption. reflexivity.
Qed.

Lemma what_question_uses_recent_turns_witness :
  any_word ["what"; "tell me about"] (Py.lower "What color?") = true
  /\ _handle_basic_response Py.str_of_int (session_of service_down plain_article) "What color?"
     = Ok (ellipsize (get_relevant_context (session_of service_down plain_article) "What color?" 3)).
Proof.
  split; [reflexivity|].
  exact (proj1 (what_question_uses_recent_turns Py.str_of_int
                  (session_of service_down plain_article) "What color?" eq_refl)).
Defined.

(** C7.  On the three truncating paths the answer is the source string
    cut at 100 characters: its first 100 characters followed by "..." when
    it is longer than 100, the source itself otherwise.  The source is the
    selected context on the what- and general-question paths and the stored
    summary on the summary path. *)
Theorem truncating_paths
        {chat_session : Type} (self : ArticleChatbot chat_session) (question : string) :
  (exists out : string,
      _handle_what_question self question = Ok out
      /\ truncation_of (get_relevant_context self question 3) out)
  /\ (exists out : string,
        _handle_general_question self question = Ok out
        /\ truncation_of (get_relevant_context self question 3) out)
  /\ (forall summary : string,
        dict_get (article_data self) "teaser_text" (PyStr "No summary available.")
        = PyStr summary ->
        exists out : string,
          _handle_summary_question self = Ok out /\ truncation_of summary out).
Proof.
  split; [eexists; split; [reflexivity | apply ellipsize_truncation]|].
  split; [eexists; split; [reflexivity | apply ellipsize_truncation]|].
  intros summary Hs. unfold _handle_summary_question. rewrite Hs.
  eexists; split; [reflexivity | apply ellipsize_truncation].
Qed.

Lemma truncating_paths_witness :
  exists out : string,
    _handle_summary_question (session_of service_down sky_article) = Ok out
    /\ truncation_of "A short piece about sky color." out.
Proof.
  apply (truncating_paths (session_of service_down sky_article) "what is this about").
  reflexivity.
Defined.

Example truncation_ex1 :
  _handle_what_question (session_of service_down sky_article) "what is this about"
  = Ok (Py.take 100 (repeat_string "The sky is blue. " 10) ++ "...").
Proof. vm_compute. reflexivity. Qed.

(** ** Dispatch order *)

(** A lower-case pattern that occurs in the question occurs in the
    lower-cased question, which is what the dispatch tests. *)
Lemma starts_with_lower (p s : string) :
  Py.starts_with p s = true -> Py.starts_with (Py.lower p) (Py.lower s) = true.
Proof.
  revert s; induction p as [|a p IH]; intros s H; [reflexivity|].
  destruct s as [|b s]; [discriminate|]. simpl in *.
  destruct (Ascii.eqb_spec a b) as [->|]; [|discriminate].
  rewrite Ascii.eqb_refl. apply IH; assumption.
Qed.

Lemma contains_lower (p s : string) :
  Py.contains p s = true -> Py.contains (Py.lower p) (Py.lower s) = true.
Proof.
  induction s as [|b s IH]; intros H.
  - simpl in H. rewrite orb_false_r in H.
    apply starts_with_lower in H. simpl. rewrite orb_false_r. exact H.
  - change (Py.starts_with p (String b s) || Py.contains p s = true) in H.
    change (Py.starts_with (Py.lower p) (Py.lower (String b s))
            || Py.contains (Py.lower p) (Py.lower s) = true).
    apply orb_true_iff in H as [H|H]; apply orb_true_iff;
      [left; apply starts_with_lower | right; apply IH]; assumption.
Qed.

(** C8 as stated fails for a question that also contains "what": the
    what-pattern is tested before the when-pattern. *)
Lemma when_and_who_after_what :
  Py.contains "when" (Py.lower "What happened when, and who wrote it?") = true
  /\ Py.contains "who" (Py.lower "What happened when, and who wrote it?") = true
  /\ _handle_basic_response Py.str_of_int (session_of service_down plain_article)
       "What happened when, and who wrote it?"
     = Ok "The sky is blue."
  /\ _handle_when_question Py.str_of_int (session_of service_down plain_article)
     = Ok "Publication date not available"
  /\ _handle_basic_response Py.str_of_int (session_of service_down plain_article)
       "What happened when, and who wrote it?"
     <> _handle_when_question Py.str_of_int (session_of service_down plain_article).
Proof.
  split; [reflexivity|]. split; [reflexivity|].
  split; [vm_compute; reflexivity|]. split; [vm_compute; reflexivity|].
  vm_compute. discriminate.
Qed.

(** C8, amended.  The fallback tests the lower-cased question against the
    patterns in the order what/tell me about, when/date/time, who/author,
    summary/overview/about, and answers with the handler of the first
    pattern that matches, the general handler when none does.  So a
    question containing "what" and "who" gets the what-handler's answer,
    and a question containing "when" and "who", and neither "what" nor
    "tell me about", gets the when-handler's answer. *)
Theorem fallback_dispatch_order
        {chat_session : Type} (year_text : Z -> string)
        (self : ArticleChatbot chat_session) (question : string) :
  let lowered := Py.lower question in
  let answer := _handle_basic_response year_text self question in
  (any_word ["what"; "tell me about"] lowered = true ->
   answer = _handle_what_question self question)
  /\ (any_word ["what"; "tell me about"] lowered = false ->
      any_word ["when"; "date"; "time"] lowered = true ->
      answer = _handle_when_question year_text self)
  /\ (any_word ["what"; "tell me about"] lowered = false ->
      any_word ["when"; "date"; "time"] lowered = false ->
      any_word ["who"; "author"] lowered = true ->
      answer = _handle_who_question self)
  /\ (any_word ["what"; "tell me about"] lowered = false ->
      any_word ["when"; "date"; "time"] lowered = false ->
      any_word ["who"; "author"] lowered = false ->
      any_word ["summary"; "overview"; "about"] lowered = true ->
      answer = _handle_summary_question self)
  /\ (any_word ["what"; "tell me about"] lowered = false ->
      any_word ["when"; "date"; "time"] lowered = false ->
      any_word ["who"; "author"] lowered = false ->
      any_word ["summary"; "overview"; "about"] lowered = false ->
      answer = _handle_general_question self question)
  /\ (Py.contains "what" lowered = true -> Py.contains "who" lowered = true ->
      answer = _handle_what_question self question)
  /\ (Py.contains "when" lowered = true -> Py.contains "who" lowered = true ->
      any_word ["what"; "tell me about"] lowered = false ->
      answer = _handle_when_question year_text self).
Proof.
  intros lowered answer. subst lowered answer.
  split; [apply dispatch_what|].
  split; [apply dispatch_when|].
  split; [apply dispatch_who|].
  split; [apply dispatch_summary|].
  split; [apply dispatch_general|].
  split.
  - intros Hwhat _. apply dispatch_what.
    apply (any_word_intro _ "what"); [left; reflexivity | exact Hwhat].
  - intros Hwhen _ Hnot. apply dispatch_when; [exact Hnot|].
    apply (any_word_intro _ "when"); [left; reflexivity | exact Hwhen].
Qed.

Lemma fallback_dispatch_order_witness :
  Py.contains "when" (Py.lower "When was it written, and who wrote it?") = true
  /\ Py.contains "who" (Py.lower "When was it written, and who wrote it?") = true
  /\ any_word ["what"; "tell me about"] (Py.lower "When was it written, and who wrote it?") = false
  /\ _handle_basic_response Py.str_of_int (session_of service_down sky_article)
       "When was it written, and who wrote it?"
     = _handle_when_question Py.str_of_int (session_of service_down sky_article).
Proof.
  split; [reflexivity|]. split; [reflexivity|]. split; [reflexivity|].
  exact (proj2 (proj2 (proj2 (proj2 (proj2 (proj2
           (fallback_dispatch_order Py.str_of_int (session_of service_down sky_article)
              "When was it written, and who wrote it?"))))))
           eq_refl eq_refl eq_refl).
Defined.

(** ** Author *)

Lemma dict_in_lookup (k : string) (d : gmap string pyval) :
  dict_in k d = true <-> exists v : pyval, d !! k = Some v.
Proof.
  unfold dict_in. rewrite bool_decide_eq_true. reflexivity.
Qed.

Lemma who_question_present
      {chat_session : Type} (self : ArticleChatbot chat_session) (v : pyval) :
  article_data self !! "author" = Some v ->
  _handle_who_question self = Ok ("Author: " ++ format_value v).
Proof.
  intros Hv. unfold _handle_who_question.
  replace (dict_in "author" (article_data self)) with true
    by (symmetry; apply dict_in_lookup; eauto).
  unfold dict_getitem. rewrite Hv. reflexivity.
Qed.

Lemma who_question_absent
      {chat_session : Type} (self : ArticleChatbot chat_session) :
  article_data self !! "author" = None ->
  _handle_who_question self = Ok "Author: N/A".
Proof.
  intros Hv. unfold _handle_who_question.
  destruct (dict_in "author" (article_data self)) eqn:Hin; [|reflexivity].
  apply dict_in_lookup in Hin as [v Hin]. congruence.
Qed.

(** C9 as stated fails in its "exactly when": a stored author "N/A" gives
    the same answer as a missing key. *)
Lemma who_question_stored_na :
  article_data (session_of service_down (authored_article (PyStr "N/A"))) !! "author"
  = Some (PyStr "N/A")
  /\ _handle_who_question (session_of service_down (authored_article (PyStr "N/A")))
     = Ok "Author: N/A"
  /\ ~ (_handle_who_question (session_of service_down (authored_article (PyStr "N/A")))
        = Ok "Author: N/A"
        <-> article_data (session_of service_down (authored_article (PyStr "N/A"))) !! "author"
            = None).
Proof.
  assert (H1 : article_data (session_of service_down (authored_article (PyStr "N/A"))) !! "author"
               = Some (PyStr "N/A")) by (vm_compute; reflexivity).
  assert (H2 : _handle_who_question (session_of service_down (authored_article (PyStr "N/A")))
               = Ok "Author: N/A") by (apply (who_question_present _ _ H1)).
  split; [exact H1|]. split; [exact H2|].
  intros [Hto _]. specialize (Hto H2). rewrite H1 in Hto. discriminate.
Qed.

(** C9, amended.  The who-handler decides on the presence of the key
    'author', not on its value: with the key present it answers "Author: "
    followed by the stored value as printed, "Author: None" for a null and
    "Author: " for an empty string; with the key absent it answers
    "Author: N/A".  The answer is "Author: N/A" exactly when the key is
    absent or the stored value itself prints as "N/A". *)
Theorem who_question_by_key_presence
        {chat_session : Type} (self : ArticleChatbot chat_session) :
  (forall v : pyval,
      article_data self !! "author" = Some v ->
      _handle_who_question self = Ok ("Author: " ++ format_value v))
  /\ (article_data self !! "author" = Some PyNone ->
      _handle_who_question self = Ok "Author: None")
  /\ (article_data self !! "author" = Some (PyStr EmptyString) ->
      _handle_who_question self = Ok "Author: ")
  /\ (article_data self !! "author" = None ->
      _handle_who_question self = Ok "Author: N/A")
  /\ (_handle_who_question self = Ok "Author: N/A"
      <-> article_data self !! "author" = None
          \/ exists v : pyval,
               article_data self !! "author" = Some v /\ format_value v = "N/A").
Proof.
  split; [apply who_question_present|].
  split; [intros H; apply (who_question_present self _ H)|].
  split; [intros H; apply (who_question_present self _ H)|].
  split; [apply who_question_absent|].
  destruct (article_data self !! "author") as [v|] eqn:Hv.
  - rewrite (who_question_present self v Hv). split.
    + intros H. right. exists v. split; [reflexivity|].
      injection H as H. exact H.
    + intros [H|(v' & Hv' & Hf)]; [discriminate|].
      injection Hv' as <-. rewrite Hf. reflexivity.
  - rewrite (who_question_absent self Hv). split; [left|]; reflexivity.
Qed.

Lemma who_question_by_key_presence_witness :
  _handle_who_question (session_of service_down (authored_article PyNone)) = Ok "Author: None"
  /\ _handle_who_question (session_of service_down plain_article) = Ok "Author: N/A"
  /\ _handle_who_question (session_of service_down sky_article) = Ok "Author: Jane Doe".
Proof.
  split.
  - apply (proj1 (proj2 (who_question_by_key_presence
                           (session_of service_down (authored_article PyNone))))).
    vm_compute. reflexivity.
  - split.
    + apply (proj1 (proj2 (proj2 (proj2 (who_question_by_key_presence
                                           (session_of service_down plain_article)))))).
      vm_compute. reflexivity.
    + apply (proj1 (who_question_by_key_presence (session_of service_down sky_article))
                   (PyStr "Jane Doe")).
      vm_compute. reflexivity.
Defined.

(** ** Publication date *)

Lemma when_question_cases
      {chat_session : Type} (year_text : Z -> string) (self : ArticleChatbot chat_session) :
  _handle_when_question year_text self
  = if truthy (dict_get (article_data self) "publication_date" (PyStr EmptyString))
    then match strptime_value (dict_get (article_data self) "publication_date" (PyStr EmptyString)) with
         | Ok d => Ok ("Published on " ++ Date.strftime_BdY year_text d)
         | Raise _ => Ok "Error retrieving publication date"
         end
    else Ok "Publication date not available".
Proof.
  unfold _handle_when_question.
  destruct (truthy _); [|reflexivity].
  destruct (strptime_value _); reflexivity.
Qed.

Lemma truthy_nonempty (s : string) : s <> EmptyString -> truthy (PyStr s) = true.
Proof.
  intros Hs. simpl. apply negb_true_iff. apply String.eqb_neq. exact Hs.
Qed.

(** C2 as stated fails: the two fixed sentences are paired the other way
    round.  A row without a publication date gives "Publication date not
    available", and a stored date that cannot be parsed gives "Error
    retrieving publication date". *)
Lemma when_question_sentences_swapped :
  article_data (session_of service_down plain_article) !! "publication_date" = None
  /\ _handle_basic_response Py.str_of_int (session_of service_down plain_article)
       "When was it published?"
     = Ok "Publication date not available"
  /\ _handle_basic_response Py.str_of_int (session_of service_down plain_article)
       "When was it published?"
     <> Ok "Error retrieving publication date"
  /\ Date.strptime_Ymd "2023-02-29" = Raise ValueError
  /\ _handle_basic_response Py.str_of_int
       (session_of service_down (dated_article (PyStr "2023-02-29")))
       "When was it published?"
     = Ok "Error retrieving publication date"
  /\ _handle_basic_response Py.str_of_int
       (session_of service_down (dated_article (PyStr "2023-02-29")))
       "When was it published?"
     <> Ok "Publication date not available".
Proof.
  split; [vm_compute; reflexivity|].
  split; [vm_compute; reflexivity|].
  split; [vm_compute; discriminate|].
  split; [vm_compute; reflexivity|].
  split; [vm_compute; reflexivity|].
  vm_compute. discriminate.
Qed.

(** C2, amended.  For a question that contains "when", "date" or "time"
    and is not taken by the what/tell-me-about pattern before it: a stored
    non-empty date that parses as year-month-day is answered with
    "Published on <Month> <Day>, <Year>" (day in two digits); a stored date
    that does not parse, or is not text, is answered with "Error
    retrieving publication date"; a date that is absent, null or empty is
    answered with "Publication date not available". *)
Theorem when_question_outcomes
        {chat_session : Type} (year_text : Z -> string)
        (self : ArticleChatbot chat_session) (question : string) :
  any_word ["what"; "tell me about"] (Py.lower question) = false ->
  any_word ["when"; "date"; "time"] (Py.lower question) = true ->
  let stored := article_data self !! "publication_date" in
  let answer := _handle_basic_response year_text self question in
  (forall (s : string) (d : Date.date),
      stored = Some (PyStr s) -> s <> EmptyString -> Date.strptime_Ymd s = Ok d ->
      answer = Ok ("Published on " ++ Date.month_name (Date.month d) ++ " "
                   ++ Date.two_digits (Date.day d) ++ ", " ++ year_text (Date.year d)))
  /\ (forall (s : string) (e : exn),
        stored = Some (PyStr s) -> s <> EmptyString -> Date.strptime_Ymd s = Raise e ->
        answer = Ok "Error retrieving publication date")
  /\ (forall n : Z,
        stored = Some (PyInt n) -> n <> 0 ->
        answer = Ok "Error retrieving publication date")
  /\ (stored = None \/ stored = Some PyNone \/ stored = Some (PyStr EmptyString)
      \/ stored = Some (PyInt 0) ->
      answer = Ok "Publication date not available").
Proof.
  intros Hwhat Hwhen stored answer. subst stored answer.
  rewrite (dispatch_when year_text self question Hwhat Hwhen), when_question_cases.
  unfold dict_get.
  split; [|split; [|split]].
  - intros s d Hs Hne Hd. rewrite Hs. simpl default.
    rewrite (truthy_nonempty s Hne). simpl strptime_value. rewrite Hd. reflexivity.
  - intros s e Hs Hne Hd. rewrite Hs. simpl default.
    rewrite (truthy_nonempty s Hne). simpl strptime_value. rewrite Hd. reflexivity.
  - intros n Hs Hne. rewrite Hs. simpl.
    destruct (Z.eqb_spec n 0) as [?|_]; [contradiction | reflexivity].
  - intros [Hs|[Hs|[Hs|Hs]]]; rewrite Hs; reflexivity.
Qed.

Lemma when_question_outcomes_witness :
  _handle_basic_response Py.str_of_int
    (session_of service_down (dated_article (PyStr "2024-03-05"))) "When was it published?"
  = Ok "Published on March 05, 2024".
Proof.
  apply (proj1 (when_question_outcomes Py.str_of_int
                  (session_of service_down (dated_article (PyStr "2024-03-05")))
                  "When was it published?" eq_refl eq_refl)
               "2024-03-05" (Date.mkdate 2024 3 5)).
  - vm_compute. reflexivity.
  - discriminate.
  - vm_compute. reflexivity.
Defined.

(** ** Session: the three ways one call of [chat_with_article] can go *)

Section Session.

Context {chat_session : Type}.
Variable send_message : chat_session -> string -> result response * chat_session.
Variable year_text : Z -> string.
Implicit Types (self : ArticleChatbot chat_session) (question : string).

(** The chat handle raises: the fallback answers, computed on the ledger
    as it was, and the ledger is as it was. *)
Lemma chat_with_article_send_raises self question (e : exn) (c : chat_session) :
  send_message (chat self) (prompt_for self question) = (Raise e, c) ->
  chat_with_article send_message year_text question self
  = (_handle_basic_response year_text self question, set_chat self c)
  /\ conversation_history (snd (chat_with_article send_message year_text question self))
     = conversation_history self.
Proof.
  intros Hsend.
  assert (Hrun : chat_with_article send_message year_text question self
                 = (_handle_basic_response year_text self question, set_chat self c)).
  { unfold chat_with_article, try_except, mbind, M_bind, get_self, chat_send.
    fold (prompt_for self question). rewrite Hsend. reflexivity. }
  split; [exact Hrun | rewrite Hrun; reflexivity].
Qed.

(** The chat handle answers and the reply has a text: both turns are
    recorded and the text is returned. *)
Lemma chat_with_article_replies self question (r : response) (reply : string)
      (c : chat_session) :
  send_message (chat self) (prompt_for self question) = (Ok r, c) ->
  text r = Ok reply ->
  chat_with_article send_message year_text question self
  = (Ok reply,
     set_history (set_chat self c)
                 (conversation_history self ++ [("user", question); ("assistant", reply)])).
Proof.
  intros Hsend Htext.
  unfold chat_with_article, try_except, mbind, M_bind, get_self, chat_send,
    history_append, lift.
  fold (prompt_for self question). rewrite Hsend, Htext. simpl.
  rewrite <- app_assoc. reflexivity.
Qed.

(** The chat handle answers but reading the reply's text raises: the user
    turn has been recorded by then, and the fallback answers on the
    ledger that already holds it. *)
Lemma chat_with_article_text_raises self question (r : response) (e : exn)
      (c : chat_session) :
  send_message (chat self) (prompt_for self question) = (Ok r, c) ->
  text r = Raise e ->
  chat_with_article send_message year_text question self
  = (_handle_basic_response year_text
       (set_history self (conversation_history self ++ [("user", question)])) question,
     set_history (set_chat self c) (conversation_history self ++ [("user", question)])).
Proof.
  intros Hsend Htext.
  unfold chat_with_article, try_except, mbind, M_bind, get_self, chat_send,
    history_append, lift.
  fold (prompt_for self question). rewrite Hsend, Htext. reflexivity.
Qed.

End Session.

(** C4 on the failing input: the service accepts the message but its
    reply carries no text, so reading [response.text] raises.  The call
    returns the fallback answer, and the ledger has gained the user turn. *)
Theorem blocked_reply_records_user_turn :
  conversation_history (session_of service_blocked plain_article)
  = [("system", initial_prompt_text "The sky is blue.")]
  /\ fst (chat_with_article service_blocked Py.str_of_int "Who wrote this?"
            (session_of service_blocked plain_article))
     = _handle_basic_response Py.str_of_int (session_of service_blocked plain_article)
         "Who wrote this?"
  /\ fst (chat_with_article service_blocked Py.str_of_int "Who wrote this?"
            (session_of service_blocked plain_article))
     = Ok "Author: N/A"
  /\ conversation_history
       (snd (chat_with_article service_blocked Py.str_of_int "Who wrote this?"
               (session_of service_blocked plain_article)))
     = (conversation_history (session_of service_blocked plain_article)
        ++ [("user", "Who wrote this?")])%list
  /\ conversation_history
       (snd (chat_with_article service_blocked Py.str_of_int "Who wrote this?"
               (session_of service_blocked plain_article)))
     <> conversation_history (session_of service_blocked plain_article).
Proof.
  split; [vm_compute; reflexivity|].
  split; [vm_compute; reflexivity|].
  split; [vm_compute; reflexivity|].
  split; [vm_compute; reflexivity|].
  vm_compute. discriminate.
Qed.

(** The same session when the service is down: the fallback answer, and
    the ledger unchanged. *)
Example service_down_keeps_ledger :
  fst (chat_with_article service_down Py.str_of_int "Who wrote this?"
         (session_of service_down sky_article))
  = Ok "Author: Jane Doe"
  /\ conversation_history
       (snd (chat_with_article service_down Py.str_of_int "Who wrote this?"
               (session_of service_down sky_article)))
     = conversation_history (session_of service_down sky_article).
Proof. split; vm_compute; reflexivity. Qed.

(** With the service up both turns are recorded. *)
Example service_up_records_turns :
  fst (chat_with_article service_up Py.str_of_int "Who wrote this?"
         (session_of service_up sky_article))
  = Ok "It is about the sky."
  /\ conversation_history
       (snd (chat_with_article service_up Py.str_of_int "Who wrote this?"
               (session_of service_up sky_article)))
     = (conversation_history (session_of service_up sky_article)
        ++ [("user", "Who wrote this?"); ("assistant", "It is about the sky.")])%list.
Proof. split; vm_compute; reflexivity. Qed.

(** * Further properties of the session *)

Section SessionInvariants.

Context {chat_session : Type}.
Variable send_message : chat_session -> string -> result response * chat_session.
Variable year_text : Z -> string.
Implicit Types (self : ArticleChatbot chat_session) (question : string).

(** One call, by what the chat handle does. *)
Lemma chat_with_article_cases self question :
  match send_message (chat self) (prompt_for self question) with
  | (Raise _, c) =>
      chat_with_article send_message year_text question self
      = (_handle_basic_response year_text self question, set_chat self c)
  | (Ok r, c) =>
      match text r with
      | Ok reply =>
          chat_with_article send_message year_text question self
          = (Ok reply,
             set_history (set_chat self c)
               (conversation_history self ++ [("user", question); ("assistant", reply)]))
      | Raise _ =>
          chat_with_article send_message year_text question self
          = (_handle_basic_response year_text
               (set_history self (conversation_history self ++ [("user", question)])) question,
             set_history (set_chat self c) (conversation_history self ++ [("user", question)]))
      end
  end.
Proof.
  destruct (send_message (chat self) (prompt_for self question)) as [[r|e] c] eqn:Hsend.
  - destruct (text r) as [reply|e] eqn:Htext.
    + apply (chat_with_article_replies _ _ _ _ r reply c Hsend Htext).
    + apply (chat_with_article_text_raises _ _ _ _ r e c Hsend Htext).
  - apply (chat_with_article_send_raises _ _ _ _ e c Hsend).
Qed.

(** The fallback answers, whatever the question, unless the stored teaser
    is something other than text. *)
Lemma fallback_answers self question :
  (forall v : pyval, article_data self !! "teaser_text" = Some v -> exists s : string, v = PyStr s) ->
  exists answer : string, _handle_basic_response year_text self question = Ok answer.
Proof.
  intros Hteaser. unfold _handle_basic_response.
  destruct (any_word ["what"; "tell me about"] _); [eexists; reflexivity|].
  destruct (any_word ["when"; "date"; "time"] _).
  { rewrite when_question_cases. destruct (truthy _); [|eexists; reflexivity].
    destruct (strptime_value _); eexists; reflexivity. }
  destruct (any_word ["who"; "author"] _).
  { destruct (article_data self !! "author") as [v|] eqn:Hv.
    - rewrite (who_question_present self v Hv). eexists; reflexivity.
    - rewrite (who_question_absent self Hv). eexists; reflexivity. }
  destruct (any_word ["summary"; "overview"; "about"] _); [|eexists; reflexivity].
  unfold _handle_summary_question, dict_get.
  destruct (article_data self !! "teaser_text") as [v|] eqn:Hv; [|eexists; reflexivity].
  destruct (Hteaser v eq_refl) as [s ->]. eexists; reflexivity.
Qed.

Lemma chat_with_article_answers self question :
  (forall v : pyval, article_data self !! "teaser_text" = Some v -> exists s : string, v = PyStr s) ->
  exists answer : string,
    fst (chat_with_article send_message year_text question self) = Ok answer.
Proof.
  intros Hteaser.
  pose proof (chat_with_article_cases self question) as H.
  destruct (send_message (chat self) (prompt_for self question)) as [[r|e] c].
  - destruct (text r) as [reply|e]; rewrite H.
    + exists reply. reflexivity.
    + apply fallback_answers. exact Hteaser.
  - rewrite H. apply fallback_answers. exact Hteaser.
Qed.

End SessionInvariants.

(** X1.  Whatever the chat handle does, one call of [chat_with_article]
    only adds to the end of the ledger: nothing, the user turn alone, or
    the user turn followed by the assistant turn holding the returned
    reply. *)
Theorem chat_with_article_extends_ledger
        {chat_session : Type}
        (send_message : chat_session -> string -> result response * chat_session)
        (year_text : Z -> string) (self : ArticleChatbot chat_session) (question : string) :
  conversation_history (snd (chat_with_article send_message year_text question self))
  = conversation_history self
  \/ conversation_history (snd (chat_with_article send_message year_text question self))
     = (conversation_history self ++ [("user", question)])%list
  \/ exists reply : string,
       fst (chat_with_article send_message year_text question self) = Ok reply
       /\ conversation_history (snd (chat_with_article send_message year_text question self))
          = (conversation_history self ++ [("user", question); ("assistant", reply)])%list.
Proof.
  pose proof (chat_with_article_cases send_message year_text self question) as H.
  destruct (send_message (chat self) (prompt_for self question)) as [[r|e] c].
  - destruct (text r) as [reply|e]; rewrite H.
    + right; right. exists reply. split; reflexivity.
    + right; left. reflexivity.
  - rewrite H. left. reflexivity.
Qed.

(** X2.  A call of [chat_with_article] never touches the article: its id,
    its row, its text and its fragments are the same afterwards. *)
Theorem chat_with_article_keeps_article
        {chat_session : Type}
        (send_message : chat_session -> string -> result response * chat_session)
        (year_text : Z -> string) (self : ArticleChatbot chat_session) (question : string) :
  article_id (snd (chat_with_article send_message year_text question self)) = article_id self
  /\ article_data (snd (chat_with_article send_message year_text question self))
     = article_data self
  /\ article_text (snd (chat_with_article send_message year_text question self))
     = article_text self
  /\ chunks (snd (chat_with_article send_message year_text question self)) = chunks self.
Proof.
  pose proof (chat_with_article_cases send_message year_text self question) as H.
  destruct (send_message (chat self) (prompt_for self question)) as [[r|e] c];
    [destruct (text r)|]; rewrite H; repeat split.
Qed.

(** X3.  When the stored teaser is absent or is text, [chat_with_article]
    returns an answer for every question and every behaviour of the chat
    handle: it does not raise. *)
Theorem chat_with_article_returns
        {chat_session : Type}
        (send_message : chat_session -> string -> result response * chat_session)
        (year_text : Z -> string) (self : ArticleChatbot chat_session) (question : string) :
  (forall v : pyval, article_data self !! "teaser_text" = Some v -> exists s : string, v = PyStr s) ->
  exists answer : string,
    fst (chat_with_article send_message year_text question self) = Ok answer.
Proof.
  apply chat_with_article_answers.
Qed.

Lemma chat_with_article_returns_witness :
  exists answer : string,
    fst (chat_with_article service_down Py.str_of_int "Give me a summary"
           (session_of service_down sky_article)) = Ok answer.
Proof.
  apply (chat_with_article_returns service_down Py.str_of_int
           (session_of service_down sky_article) "Give me a summary").
  intros v Hv. vm_compute in Hv. injection Hv as <-. eexists; reflexivity.
Defined.

(** X4.  When the chat handle raises and the question goes to the summary
    handler, a stored teaser that is not text (a null, say) makes
    [chat_with_article] itself raise a [TypeError]: the fallback takes the
    length of the teaser without a guard. *)
Theorem chat_with_article_raises_on_null_teaser
        {chat_session : Type}
        (send_message : chat_session -> string -> result response * chat_session)
        (year_text : Z -> string) (self : ArticleChatbot chat_session) (question : string)
        (e : exn) (c : chat_session) (v : pyval) :
  send_message (chat self) (prompt_for self question) = (Raise e, c) ->
  any_word ["what"; "tell me about"] (Py.lower question) = false ->
  any_word ["when"; "date"; "time"] (Py.lower question) = false ->
  any_word ["who"; "author"] (Py.lower question) = false ->
  any_word ["summary"; "overview"; "about"] (Py.lower question) = true ->
  article_data self !! "teaser_text" = Some v ->
  (forall s : string, v <> PyStr s) ->
  fst (chat_with_article send_message year_text question self) = Raise TypeError.
Proof.
  intros Hsend H1 H2 H3 H4 Hv Hnot.
  destruct (chat_with_article_send_raises send_message year_text self question e c Hsend)
    as [-> _].
  simpl fst. rewrite (dispatch_summary year_text self question H1 H2 H3 H4).
  unfold _handle_summary_question, dict_get. rewrite Hv. simpl default.
  destruct v as [|s|n]; [reflexivity | destruct (Hnot s eq_refl) | reflexivity].
Qed.

Lemma chat_with_article_raises_on_null_teaser_witness :
  fst (chat_with_article service_down Py.str_of_int "Give me a summary"
         (session_of service_down null_teaser_article))
  = Raise TypeError.
Proof.
  apply (chat_with_article_raises_on_null_teaser service_down Py.str_of_int
           (session_of service_down null_teaser_article) "Give me a summary"
           ServiceError 2%nat PyNone);
    try (vm_compute; reflexivity).
  intros s; discriminate.
Defined.

(** X5.  For every [top_k] the selector returns the first [max 1 top_k]
    matching fragments, cleaned and in document order; so every
    [top_k <= 1], zero and the negative ones included, gives the context
    that [top_k = 1] gives. *)
Theorem get_relevant_context_small_top_k
        {chat_session : Type} (self : ArticleChatbot chat_session)
        (query : string) (top_k : Z) :
  select_chunks (query_terms (conversation_history self) query) top_k [] (chunks self)
  = map clean (firstn (Z.to_nat (Z.max 1 top_k))
                      (List.filter (matches (query_terms (conversation_history self) query))
                                   (chunks self)))
  /\ (top_k <= 1 ->
      get_relevant_context self query top_k = get_relevant_context self query 1).
Proof.
  split.
  - rewrite select_chunks_firstn, firstn_map. reflexivity.
  - intros Hk. unfold get_relevant_context. rewrite !select_chunks_firstn.
    replace (Z.max 1 top_k) with (Z.max 1 1) by lia. reflexivity.
Qed.

Lemma get_relevant_context_small_top_k_witness :
  get_relevant_context (session_of service_up sky_article) "Is the sky blue?" (-4)
  = get_relevant_context (session_of service_up sky_article) "Is the sky blue?" 1.
Proof.
  apply (get_relevant_context_small_top_k (session_of service_up sky_article)
                                           "Is the sky blue?" (-4)).
  lia.
Defined.

(** ** Construction of a session *)

Section Construction.

Context {chat_session : Type}.
Variable send_message : chat_session -> string -> result response * chat_session.
Implicit Types (self : ArticleChatbot chat_session) (data : gmap string pyval).

Lemma chunk_text_100_ok (full_text : string) :
  exists cs : list string,
    chunk_text full_text 100 = Ok cs /\ Py.concat cs = full_text
    /\ Forall (fun chunk => 0 < Py.len chunk <= 100) cs.
Proof.
  destruct (range_length_bounds (Py.len full_text) 100) as (HN & Hlo & Hhi);
    [unfold Py.len; lia | lia |].
  eexists. split; [apply chunk_text_windows; lia|].
  split.
  - rewrite concat_windows. simpl Py.drop. apply take_all. unfold Py.len in *. nia.
  - apply List.Forall_forall. intros chunk Hin.
    apply in_map_iff in Hin as (k & <- & Hk). apply in_seq in Hk.
    unfold Py.len at 1 2. rewrite window_length. unfold Py.len in *. nia.
Qed.

Lemma init_cases (id : string) data (fresh : chat_session) :
  init send_message id data fresh
  = match dict_get data "full_text" (PyStr EmptyString) with
    | PyStr full_text =>
        match chunk_text full_text 100 with
        | Ok cs =>
            match send_message fresh (priming_prompt cs) with
            | (Ok _, c) =>
                Ok (mkbot id data c full_text cs [("system", priming_prompt cs)])
            | (Raise e, _) => Raise e
            end
        | Raise e => Raise e
        end
    | _ => Raise TypeError
    end.
Proof.
  unfold init. destruct (dict_get data "full_text" (PyStr EmptyString)); try reflexivity.
  destruct (chunk_text s 100) as [cs|e]; [|reflexivity].
  simpl rbind. unfold _initialize_chat, mbind, M_bind, get_self, chat_send, history_append.
  rewrite (get_relevant_context_empty_ledger (mkbot id data fresh s cs []) _ 3 eq_refl).
  simpl chat. simpl chunks. fold (priming_prompt cs).
  destruct (send_message fresh (priming_prompt cs)) as [[r|e] c]; reflexivity.
Qed.

Lemma session_after_init_facts (id : string) data (fresh : chat_session) self :
  init send_message id data fresh = Ok self ->
  article_data self = data
  /\ conversation_history self = [("system", priming_prompt (chunks self))].
Proof.
  rewrite init_cases.
  destruct (dict_get data "full_text" (PyStr EmptyString)) as [|full_text|]; try discriminate.
  destruct (chunk_text full_text 100) as [cs|e]; [|discriminate].
  destruct (send_message fresh (priming_prompt cs)) as [[r|e] c]; [|discriminate].
  intros [= <-]. split; reflexivity.
Qed.

End Construction.

(** X6.  A session that [__init__] returns holds the row it was given,
    the text of the row cut into fragments of at most 100 characters whose
    concatenation is the text, and a ledger of exactly one turn: the
    system turn with the priming prompt, which the chat handle accepted. *)
Theorem session_after_init
        {chat_session : Type}
        (send_message : chat_session -> string -> result response * chat_session)
        (id : string) (data : gmap string pyval) (fresh : chat_session)
        (self : ArticleChatbot chat_session) :
  init send_message id data fresh = Ok self ->
  article_id self = id
  /\ article_data self = data
  /\ dict_get data "full_text" (PyStr EmptyString) = PyStr (article_text self)
  /\ chunk_text (article_text self) 100 = Ok (chunks self)
  /\ Py.concat (chunks self) = article_text self
  /\ Forall (fun chunk => 0 < Py.len chunk <= 100) (chunks self)
  /\ conversation_history self = [("system", priming_prompt (chunks self))]
  /\ exists r : response,
       send_message fresh (priming_prompt (chunks self)) = (Ok r, chat self).
Proof.
  rewrite init_cases.
  destruct (dict_get data "full_text" (PyStr EmptyString)) as [|full_text|]; try discriminate.
  destruct (chunk_text_100_ok full_text) as (cs & Hcs & Hcat & Hlen). rewrite Hcs.
  destruct (send_message fresh (priming_prompt cs)) as [[r|e] c] eqn:Hsend; [|discriminate].
  intros [= <-]. simpl. repeat split; try assumption.
  exists r. exact Hsend.
Qed.

Lemma session_after_init_witness :
  conversation_history (session_of service_up sky_article)
  = [("system", priming_prompt (chunks (session_of service_up sky_article)))]
  /\ Py.concat (chunks (session_of service_up sky_article))
     = article_text (session_of service_up sky_article).
Proof.
  assert (H : init service_up "a" sky_article 0%nat = Ok (session_of service_up sky_article))
    by (vm_compute; reflexivity).
  pose proof (session_after_init service_up "a" sky_article 0%nat _ H)
    as (_ & _ & _ & _ & Hcat & _ & Hhist & _).
  split; [exact Hhist | exact Hcat].
Defined.



(** X8.  A row without the text column gives a session over the empty
    text: no fragments, a priming prompt built on the no-match sentence,
    and afterwards the no-match sentence as the context of every query. *)
Theorem init_without_text
        {chat_session : Type}
        (send_message : chat_session -> string -> result response * chat_session)
        (id : string) (data : gmap string pyval) (fresh c : chat_session) (r : response) :
  data !! "full_text" = None ->
  send_message fresh (initial_prompt_text "No specific information found in the article.")
  = (Ok r, c) ->
  exists self : ArticleChatbot chat_session,
    init send_message id data fresh = Ok self
    /\ article_text self = EmptyString
    /\ chunks self = []
    /\ conversation_history self
       = [("system", initial_prompt_text "No specific information found in the article.")]
    /\ forall (query : string) (top_k : Z),
         get_relevant_context self query top_k
         = "No specific information found in the article.".
Proof.
  intros Hnone Hsend. rewrite init_cases. unfold dict_get. rewrite Hnone. simpl default.
  cbv iota. change (chunk_text EmptyString 100) with (@Ok (list string) []).
  cbv iota beta.
  change (priming_prompt [])
    with (initial_prompt_text "No specific information found in the article.").
  rewrite Hsend. eexists. split; [reflexivity|]. simpl. repeat split.
Qed.

Lemma init_without_text_witness :
  exists self : ArticleChatbot nat,
    init service_up "a4" textless_article 0%nat = Ok self
    /\ article_text self = EmptyString
    /\ chunks self = []
    /\ conversation_history self
       = [("system", initial_prompt_text "No specific information found in the article.")]
    /\ forall (query : string) (top_k : Z),
         get_relevant_context self query top_k
         = "No specific information found in the article.".
Proof.
  apply (init_without_text service_up "a4" textless_article 0%nat 1%nat
           (mkresponse (Ok "Understood."))).
  - vm_compute. reflexivity.
  - reflexivity.
Defined.

(** ** Sessions reached by a sequence of questions *)

Section Reachable.

Context {chat_session : Type}.
Variable send_message : chat_session -> string -> result response * chat_session.
Variable year_text : Z -> string.
Implicit Types (self : ArticleChatbot chat_session) (questions : list string).

Lemma ask_step self (question : string) :
  let self' := snd (chat_with_article send_message year_text question self) in
  article_data self' = article_data self
  /\ article_text self' = article_text self
  /\ chunks self' = chunks self
  /\ exists added : list (string * string),
       conversation_history self' = (conversation_history self ++ added)%list
       /\ Forall exchange_role added /\ (length added <= 2)%nat.
Proof.
  pose proof (chat_with_article_cases send_message year_text self question) as H.
  destruct (send_message (chat self) (prompt_for self question)) as [[r|e] c];
    [destruct (text r) as [reply|e]|]; rewrite H; simpl;
    (split; [reflexivity|]); (split; [reflexivity|]); (split; [reflexivity|]).
  - exists [("user", question); ("assistant", reply)].
    split; [reflexivity|]. split; [|simpl; lia].
    constructor; [left; reflexivity|]. constructor; [right; reflexivity|]. constructor.
  - exists [("user", question)].
    split; [reflexivity|]. split; [|simpl; lia].
    constructor; [left; reflexivity|]. constructor.
  - exists []. rewrite app_nil_r.
    split; [reflexivity|]. split; [constructor | simpl; lia].
Qed.

Lemma ask_all_steps questions self :
  article_data (ask_all send_message year_text questions self) = article_data self
  /\ article_text (ask_all send_message year_text questions self) = article_text self
  /\ chunks (ask_all send_message year_text questions self) = chunks self
  /\ exists added : list (string * string),
       conversation_history (ask_all send_message year_text questions self)
       = (conversation_history self ++ added)%list
       /\ Forall exchange_role added
       /\ (length added <= 2 * length questions)%nat.
Proof.
  revert self; induction questions as [|q questions IH]; intros self.
  - simpl. (split; [reflexivity|]); (split; [reflexivity|]); (split; [reflexivity|]).
    exists []. rewrite app_nil_r.
    split; [reflexivity|]. split; [constructor | simpl; lia].
  - change (ask_all send_message year_text (q :: questions) self)
      with (ask_all send_message year_text questions
              (snd (chat_with_article send_message year_text q self))).
    destruct (ask_step self q) as (Hd & Ht & Hc & added1 & Hh1 & Hr1 & Hl1).
    destruct (IH (snd (chat_with_article send_message year_text q self)))
      as (Hd' & Ht' & Hc' & added2 & Hh2 & Hr2 & Hl2).
    split; [congruence|]. split; [congruence|]. split; [congruence|].
    exists (added1 ++ added2)%list.
    split; [rewrite Hh2, Hh1, <- app_assoc; reflexivity|].
    split; [apply Forall_app; split; assumption|].
    rewrite length_app. simpl length. lia.
Qed.

End Reachable.

(** X9.  Every session reached from [__init__] by any sequence of
    questions, whatever the chat handle does, still holds the row and the
    fragments it was built with, the fragments still concatenate to the
    article text, and its ledger is the priming system turn followed by
    user and assistant turns only, at most two per question. *)
Theorem reachable_session_invariant
        {chat_session : Type}
        (send_message : chat_session -> string -> result response * chat_session)
        (year_text : Z -> string)
        (id : string) (data : gmap string pyval) (fresh : chat_session)
        (self0 : ArticleChatbot chat_session) (questions : list string) :
  init send_message id data fresh = Ok self0 ->
  article_data (ask_all send_message year_text questions self0) = data
  /\ chunks (ask_all send_message year_text questions self0) = chunks self0
  /\ Py.concat (chunks (ask_all send_message year_text questions self0))
     = article_text (ask_all send_message year_text questions self0)
  /\ exists later : list (string * string),
       conversation_history (ask_all send_message year_text questions self0)
       = ("system", priming_prompt (chunks self0)) :: later
       /\ Forall exchange_role later
       /\ (length later <= 2 * length questions)%nat.
Proof.
  intros Hinit.
  assert (Hpost : article_data self0 = data
                  /\ Py.concat (chunks self0) = article_text self0
                  /\ conversation_history self0 = [("system", priming_prompt (chunks self0))]).
  { rewrite init_cases in Hinit.
    destruct (dict_get data "full_text" (PyStr EmptyString)) as [|full_text|];
      try discriminate.
    destruct (chunk_text_100_ok full_text) as (cs & Hcs & Hcat & _). rewrite Hcs in Hinit.
    destruct (send_message fresh (priming_prompt cs)) as [[r|e] c]; [|discriminate].
    injection Hinit as <-. simpl. repeat split. exact Hcat. }
  destruct Hpost as (Hd & Hcat & Hh).
  destruct (ask_all_steps send_message year_text questions self0)
    as (Hd' & Ht' & Hc' & added & Hh' & Hr & Hl).
  split; [congruence|]. split; [exact Hc'|]. split; [congruence|].
  exists added. rewrite Hh', Hh. repeat split; assumption.
Qed.

Lemma reachable_session_invariant_witness :
  exists later : list (string * string),
    conversation_history
      (ask_all service_blocked Py.str_of_int ["Who wrote this?"; "What color?"]
               (session_of service_blocked plain_article))
    = ("system", priming_prompt (chunks (session_of service_blocked plain_article))) :: later
    /\ Forall exchange_role later
    /\ (length later <= 2 * 2)%nat.
Proof.
  apply (reachable_session_invariant service_blocked Py.str_of_int "a" plain_article 0%nat
           (session_of service_blocked plain_article) ["Who wrote this?"; "What color?"]).
  vm_compute. reflexivity.
Defined.

(** ** The words of the priming turn *)

Section PrimingWords.

Lemma flush_app (cur : string) (rest : list string) :
  Py.flush cur rest = (Py.flush cur [] ++ rest)%list.
Proof. destruct cur; reflexivity. Qed.

(** Tokens do not cross a white-space character. *)
Lemma split_go_space (cur s t : string) (sp : ascii) :
  Py.is_space sp = true ->
  Py.split_go cur (s ++ String sp t)
  = (Py.split_go cur s ++ Py.split t)%list.
Proof.
  intros Hsp. revert cur; induction s as [|c s IH]; intros cur.
  - rewrite str_app_nil_l. simpl. rewrite Hsp. apply flush_app.
  - rewrite str_app_cons. simpl. destruct (Py.is_space c).
    + rewrite IH, (flush_app cur (Py.split_go EmptyString s)), (flush_app cur (_ ++ _)).
      rewrite app_assoc. reflexivity.
    + apply IH.
Qed.

Lemma split_space (s t : string) (sp : ascii) :
  Py.is_space sp = true ->
  Py.split (s ++ String sp t) = (Py.split s ++ Py.split t)%list.
Proof. apply split_go_space. Qed.

Lemma split_leading_space (t : string) (sp : ascii) :
  Py.is_space sp = true -> Py.split (String sp t) = Py.split t.
Proof. intros Hsp. unfold Py.split. simpl. rewrite Hsp. reflexivity. Qed.

Lemma lower_app (s t : string) :
  Py.lower (s ++ t) = (Py.lower s ++ Py.lower t)%string.
Proof.
  induction s as [|c s IH]; [reflexivity|].
  rewrite str_app_cons. simpl. rewrite IH. reflexivity.
Qed.

(** The tokens of the priming prompt end with those of its closing
    sentence, whatever the context in the middle is. *)
Lemma priming_prompt_tokens (context : string) :
  exists before : list string,
    Py.split (Py.lower (initial_prompt_text context))
    = (before ++ Py.split (Py.lower priming_closing))%list.
Proof.
  unfold initial_prompt_text. fold priming_closing.
  rewrite !lower_app.
  change (Py.lower nl) with (String (ascii_of_N 10) EmptyString).
  rewrite !str_app_cons, !str_app_nil_l.
  rewrite split_space by reflexivity.
  rewrite split_leading_space by reflexivity.
  rewrite split_space by reflexivity.
  rewrite split_leading_space by reflexivity.
  eexists. rewrite app_assoc. reflexivity.
Qed.

End PrimingWords.

Lemma select_chunks_nonempty (terms cs : list string) (top_k : Z) (chunk : string) :
  In chunk cs -> matches terms chunk = true -> select_chunks terms top_k [] cs <> [].
Proof.
  intros Hin Hm. rewrite select_chunks_firstn.
  assert (Hf : In chunk (List.filter (matches terms) cs))
    by (apply filter_In; split; assumption).
  destruct (List.filter (matches terms) cs) as [|c0 rest]; [destruct Hf|].
  replace (Z.to_nat (Z.max 1 top_k)) with (S (Nat.pred (Z.to_nat (Z.max 1 top_k)))) by lia.
  simpl. discriminate.
Qed.

(** X10.  While the priming turn is among the last three turns of the
    ledger (the ledger has at most three turns), every word of the priming
    prompt's closing sentence is a search term: a fragment containing one
    of them, "the" for instance, matches whatever the question is, and the
    selection is not empty when the article has such a fragment. *)
Theorem priming_words_match_any_question
        {chat_session : Type} (self : ArticleChatbot chat_session)
        (context : string) (later : list (string * string))
        (query word chunk : string) (top_k : Z) :
  conversation_history self = ("system", initial_prompt_text context) :: later ->
  (length later <= 2)%nat ->
  In word (Py.split (Py.lower priming_closing)) ->
  Py.contains word (Py.lower chunk) = true ->
  In "the" (Py.split (Py.lower priming_closing))
  /\ matches (query_terms (conversation_history self) query) chunk = true
  /\ (In chunk (chunks self) ->
      select_chunks (query_terms (conversation_history self) query) top_k [] (chunks self)
      <> []).
Proof.
  intros Hh Hlen Hword Hc.
  assert (Hm : matches (query_terms (conversation_history self) query) chunk = true).
  { apply matches_spec. exists word. split; [|exact Hc].
    rewrite query_terms_eq. apply in_or_app. right.
    apply in_flat_map. exists ("system", initial_prompt_text context). split.
    - rewrite Hh. unfold Py.list_from, Py.clamp_index. simpl length.
      replace (Z.to_nat _) with 0%nat by (simpl; lia). left; reflexivity.
    - simpl snd. destruct (priming_prompt_tokens context) as [before ->].
      apply in_or_app. right. exact Hword. }
  split; [vm_compute; tauto|]. split; [exact Hm|].
  intros Hin. apply (select_chunks_nonempty _ _ _ chunk Hin Hm).
Qed.

Lemma priming_words_match_any_question_witness :
  matches (query_terms (conversation_history (session_of service_up plain_article))
                       "Zebra crossing?")
          "The sky is blue." = true.
Proof.
  apply (priming_words_match_any_question (session_of service_up plain_article)
           "The sky is blue." [] "Zebra crossing?" "the" "The sky is blue." 3).
  - vm_compute. reflexivity.
  - simpl. lia.
  - vm_compute. tauto.
  - vm_compute. reflexivity.
Defined.

(** ** Dates written year-month-day *)

Section IsoDates.

Lemma p_digit_digit_char (k : Z) (r : string) :
  0 <= k <= 9 -> Date.p_digit 0 9 (String (Py.digit_char k) r) = [(k, r)].
Proof.
  intros Hk.
  assert (Hcases : k = 0 \/ k = 1 \/ k = 2 \/ k = 3 \/ k = 4 \/ k = 5 \/ k = 6
                   \/ k = 7 \/ k = 8 \/ k = 9) by lia.
  repeat (destruct Hcases as [->|Hcases]; [reflexivity|]). subst k. reflexivity.
Qed.

Lemma p_seq_single {A B : Type} (p : Date.parser A) (q : A -> Date.parser B)
      (s r : string) (a : A) :
  p s = [(a, r)] -> Date.p_seq p q s = q a r.
Proof. intros H. unfold Date.p_seq. rewrite H. simpl. apply app_nil_r. Qed.

Lemma p_Y_four_digits (y : Z) (r : string) :
  0 <= y <= 9999 -> Date.p_Y (four_digits y ++ r) = [(y, r)].
Proof.
  intros Hy. unfold four_digits. rewrite !str_app_cons, str_app_nil_l.
  assert (H1 : 0 <= y / 1000 <= 9) by (Z.div_mod_to_equations; lia).
  assert (H2 : 0 <= y / 100 mod 10 <= 9) by (Z.div_mod_to_equations; lia).
  assert (H3 : 0 <= y / 10 mod 10 <= 9) by (Z.div_mod_to_equations; lia).
  assert (H4 : 0 <= y mod 10 <= 9) by (Z.div_mod_to_equations; lia).
  unfold Date.p_Y.
  rewrite (p_seq_single _ _ _ _ _ (p_digit_digit_char (y / 1000) _ H1)).
  rewrite (p_seq_single _ _ _ _ _ (p_digit_digit_char (y / 100 mod 10) _ H2)).
  rewrite (p_seq_single _ _ _ _ _ (p_digit_digit_char (y / 10 mod 10) _ H3)).
  rewrite (p_seq_single _ _ _ _ _ (p_digit_digit_char (y mod 10) _ H4)).
  unfold Date.p_ret. do 2 f_equal. Z.div_mod_to_equations. lia.
Qed.

(** The pattern reads a date written year-month-day back, and leaves
    nothing over. *)
Lemma p_Ymd_iso_date (y m d : Z) :
  0 <= y <= 9999 -> 1 <= m <= 12 -> 1 <= d <= 31 ->
  exists more : list (Date.date * string),
    Date.p_Ymd (iso_date (Date.mkdate y m d)) = (Date.mkdate y m d, EmptyString) :: more.
Proof.
  intros Hy Hm Hd. unfold iso_date, Date.p_Ymd. simpl Date.year. simpl Date.month.
  simpl Date.day.
  rewrite (p_seq_single _ _ _ _ _ (p_Y_four_digits y _ Hy)).
  assert (Hmc : m = 1 \/ m = 2 \/ m = 3 \/ m = 4 \/ m = 5 \/ m = 6 \/ m = 7 \/ m = 8
                \/ m = 9 \/ m = 10 \/ m = 11 \/ m = 12) by lia.
  assert (Hdc : d = 1 \/ d = 2 \/ d = 3 \/ d = 4 \/ d = 5 \/ d = 6 \/ d = 7 \/ d = 8
                \/ d = 9 \/ d = 10 \/ d = 11 \/ d = 12 \/ d = 13 \/ d = 14 \/ d = 15
                \/ d = 16 \/ d = 17 \/ d = 18 \/ d = 19 \/ d = 20 \/ d = 21 \/ d = 22
                \/ d = 23 \/ d = 24 \/ d = 25 \/ d = 26 \/ d = 27 \/ d = 28 \/ d = 29
                \/ d = 30 \/ d = 31) by lia.
  clear Hm Hd.
  repeat (destruct Hmc as [->|Hmc]);
    try subst m;
    repeat (destruct Hdc as [->|Hdc]);
    try subst d;
    vm_compute; eexists; reflexivity.
Qed.

Lemma valid_bounds (d : Date.date) :
  Date.valid d = true ->
  1 <= Date.year d /\ 1 <= Date.month d <= 12 /\ 1 <= Date.day d <= 31.
Proof.
  unfold Date.valid, Date.days_in_month. intros H.
  repeat (apply andb_true_iff in H as [H ?]).
  destruct (Date.month d =? 2); [destruct (Date.is_leap (Date.year d))|];
    [| |destruct (_ || _)]; lia.
Qed.

End IsoDates.

(** X11.  A stored publication date that is a real calendar date of the
    years 1 to 9999, written year-month-day with leading zeros, is always
    read back as that date, and the when-handler answers with its month
    name, its day in two digits and its year. *)
Theorem when_question_iso_date
        {chat_session : Type} (year_text : Z -> string)
        (self : ArticleChatbot chat_session) (d : Date.date) :
  Date.valid d = true ->
  Date.year d <= 9999 ->
  article_data self !! "publication_date" = Some (PyStr (iso_date d)) ->
  Date.strptime_Ymd (iso_date d) = Ok d
  /\ _handle_when_question year_text self
     = Ok ("Published on " ++ Date.month_name (Date.month d) ++ " "
           ++ Date.two_digits (Date.day d) ++ ", " ++ year_text (Date.year d)).
Proof.
  intros Hvalid Hy Hstored.
  destruct (valid_bounds d Hvalid) as (Hy1 & Hm & Hd).
  assert (Hparse : Date.strptime_Ymd (iso_date d) = Ok d).
  { unfold Date.strptime_Ymd. destruct d as [y m dd]. simpl in *.
    destruct (p_Ymd_iso_date y m dd ltac:(lia) Hm Hd) as [more ->].
    rewrite Hvalid. reflexivity. }
  split; [exact Hparse|].
  rewrite when_question_cases. unfold dict_get. rewrite Hstored. simpl default.
  replace (truthy (PyStr (iso_date d))) with true by reflexivity.
  simpl strptime_value. rewrite Hparse. reflexivity.
Qed.

Lemma when_question_iso_date_witness :
  Date.strptime_Ymd (iso_date (Date.mkdate 2024 2 29)) = Ok (Date.mkdate 2024 2 29)
  /\ _handle_when_question Py.str_of_int
       (session_of service_down (dated_article (PyStr (iso_date (Date.mkdate 2024 2 29)))))
     = Ok "Published on February 29, 2024".
Proof.
  apply (when_question_iso_date Py.str_of_int
           (session_of service_down (dated_article (PyStr (iso_date (Date.mkdate 2024 2 29)))))
           (Date.mkdate 2024 2 29)).
  - reflexivity.
  - simpl. lia.
  - vm_compute. reflexivity.
Defined.

(** ** Length and letter case of the fallback's answers *)

Lemma ellipsize_length (x : string) : Py.len (ellipsize x) <= 103.
Proof.
  unfold ellipsize. destruct (Z.ltb_spec 100 (Py.len x)) as [Hlong|Hshort]; [|lia].
  replace (Py.slice x 0 100) with (Py.take 100 x)
    by (symmetry; exact (slice_prefix x 100)).
  unfold Py.len in *. rewrite str_length_app, length_take. simpl String.length. lia.
Qed.

(** X12.  An answer of the what-, general- or summary-handler has at
    most 103 characters: 100 of the source and the ellipsis. *)
Theorem truncated_answers_are_short
        {chat_session : Type} (self : ArticleChatbot chat_session)
        (question out : string) :
  _handle_what_question self question = Ok out
  \/ _handle_general_question self question = Ok out
  \/ _handle_summary_question self = Ok out ->
  Py.len out <= 103.
Proof.
  intros [H|[H|H]].
  - injection H as <-. apply ellipsize_length.
  - injection H as <-. apply ellipsize_length.
  - unfold _handle_summary_question in H.
    destruct (dict_get (article_data self) "teaser_text" (PyStr "No summary available."))
      as [|s|n]; try discriminate.
    injection H as <-. apply ellipsize_length.
Qed.

Lemma truncated_answers_are_short_witness :
  Py.len (Py.take 100 (repeat_string "The sky is blue. " 10) ++ "...") <= 103.
Proof.
  apply (truncated_answers_are_short (session_of service_down sky_article)
           "what is this about").
  left. vm_compute. reflexivity.
Defined.

Lemma lower_char_idempotent (c : ascii) :
  Py.lower_char (Py.lower_char c) = Py.lower_char c.
Proof. destruct c as [[] [] [] [] [] [] [] []]; reflexivity. Qed.

Lemma lower_idempotent (s : string) : Py.lower (Py.lower s) = Py.lower s.
Proof.
  induction s as [|c s IH]; [reflexivity|].
  simpl. rewrite lower_char_idempotent, IH. reflexivity.
Qed.

Lemma fallback_by_lowered
      {chat_session : Type} (year_text : Z -> string)
      (self : ArticleChatbot chat_session) (q1 q2 : string) :
  Py.lower q1 = Py.lower q2 ->
  _handle_basic_response year_text self q1 = _handle_basic_response year_text self q2.
Proof.
  intros Hl.
  unfold _handle_basic_response, _handle_what_question, _handle_general_question,
    get_relevant_context, query_terms.
  rewrite Hl. reflexivity.
Qed.

(** X13.  The fallback does not see letter case: two questions with the
    same lower-cased text get the same answer, and a question gets the
    answer of its lower-cased text. *)
Theorem fallback_ignores_letter_case
        {chat_session : Type} (year_text : Z -> string)
        (self : ArticleChatbot chat_session) (q1 q2 : string) :
  (Py.lower q1 = Py.lower q2 ->
   _handle_basic_response year_text self q1 = _handle_basic_response year_text self q2)
  /\ _handle_basic_response year_text self q1
     = _handle_basic_response year_text self (Py.lower q1).
Proof.
  split; [apply fallback_by_lowered|].
  apply fallback_by_lowered. symmetry. apply lower_idempotent.
Qed.

Lemma fallback_ignores_letter_case_witness :
  _handle_basic_response Py.str_of_int (session_of service_down sky_article) "WHO wrote THIS?"
  = _handle_basic_response Py.str_of_int (session_of service_down sky_article) "Who Wrote This?".
Proof.
  exact (proj1 (fallback_ignores_letter_case Py.str_of_int
                  (session_of service_down sky_article)
                  "WHO wrote THIS?" "Who Wrote This?") eq_refl).
Defined.

(** X14.  For a positive size the number of fragments is the length of
    the text divided by the size, rounded up, and no fragment is empty. *)
Theorem chunk_text_count (s : string) (chunk_size : Z) :
  0 < chunk_size ->
  exists fragments : list string,
    chunk_text s chunk_size = Ok fragments
    /\ Z.of_nat (length fragments) = (Py.len s + chunk_size - 1) / chunk_size
    /\ Forall (fun f => f <> EmptyString) fragments.
Proof.
  intros Hcs.
  destruct (range_length_bounds (Py.len s) chunk_size) as (HN & Hlo & Hhi);
    [unfold Py.len; lia | lia |].
  eexists. split; [apply chunk_text_windows; exact Hcs|]. split.
  - rewrite length_map, length_seq, Z2Nat.id by exact HN.
    apply Z.div_unique with
      (r := Py.len s + chunk_size - 1 - chunk_size * Py.range_length 0 (Py.len s) chunk_size);
      [left; lia | lia].
  - apply List.Forall_forall. intros f Hin.
    apply in_map_iff in Hin as (k & <- & Hk). apply in_seq in Hk.
    intros Hempty.
    assert (Hlen : String.length (Py.take (Z.to_nat chunk_size)
                                           (Py.drop (k * Z.to_nat chunk_size) s)) = 0%nat)
      by (rewrite Hempty; reflexivity).
    rewrite window_length in Hlen. unfold Py.len in *. nia.
Qed.

Lemma chunk_text_count_witness :
  exists fragments : list string,
    chunk_text (repeat_string "The sky is blue. " 10) 100 = Ok fragments
    /\ Z.of_nat (length fragments)
       = (Py.len (repeat_string "The sky is blue. " 10) + 100 - 1) / 100
    /\ Forall (fun f => f <> EmptyString) fragments.
Proof. apply (chunk_text_count (repeat_string "The sky is blue. " 10) 100). lia. Defined.

(** ** The entity [&quot;] never reaches the context *)

Section Entities.

Lemma contains_cons (p s : string) (c : ascii) :
  Py.contains p (String c s) = Py.starts_with p (String c s) || Py.contains p s.
Proof. reflexivity. Qed.

Lemma contains_nil (p : string) :
  Py.contains p EmptyString = Py.starts_with p EmptyString.
Proof. simpl. apply orb_false_r. Qed.

Lemma starts_with_cons (a b : ascii) (p s : string) :
  Py.starts_with (String a p) (String b s)
  = if Ascii.eqb a b then Py.starts_with p s else false.
Proof. reflexivity. Qed.

(** A pattern without the character [ch] has it nowhere. *)
Lemma no_char_cons (ch a : ascii) (p : string) :
  Py.contains (String ch EmptyString) (String a p) = false ->
  Ascii.eqb a ch = false /\ Py.contains (String ch EmptyString) p = false.
Proof.
  rewrite contains_cons, starts_with_cons. intros H.
  apply orb_false_iff in H as [H1 H2]. split; [|exact H2].
  rewrite Ascii.eqb_sym. destruct (Ascii.eqb ch a); [discriminate | reflexivity].
Qed.

(** What is dropped after an occurrence is dropped whatever it is. *)
Lemma replace_go_step (old new : string) (c : ascii) (s : string) :
  Py.replace_go old new 0 (String c s)
  = if Py.starts_with old (String c s)
    then (new ++ Py.replace_go old new (Nat.pred (String.length old)) s)%string
    else String c (Py.replace_go old new 0 s).
Proof. reflexivity. Qed.

Lemma replace_go_skip (old new : string) (c : ascii) (s : string) (k : nat) :
  Py.replace_go old new (S k) (String c s) = Py.replace_go old new k s.
Proof. reflexivity. Qed.

(** A pattern without a double quote that starts the replaced text
    starts the text itself. *)
Lemma starts_with_replaced (p t : string) :
  Py.contains dquote p = false ->
  Py.starts_with p (Py.replace_go "&quot;" dquote 0 t) = true ->
  Py.starts_with p t = true.
Proof.
  revert t; induction p as [|a p IH]; intros t Hno Hs; [destruct t; reflexivity|].
  apply no_char_cons in Hno as [Ha Hno].
  destruct t as [|b t]; [simpl in Hs; discriminate|].
  rewrite replace_go_step in Hs.
  destruct (Py.starts_with "&quot;" (String b t)).
  - change (dquote ++ ?x)%string with (String (ascii_of_N 34) x) in Hs.
    rewrite starts_with_cons, Ha in Hs. discriminate.
  - rewrite starts_with_cons in Hs |- *.
    destruct (Ascii.eqb a b); [|discriminate]. apply IH; assumption.
Qed.

Lemma replace_go_no_entity (s : string) (k : nat) :
  Py.contains "&quot;" (Py.replace_go "&quot;" dquote k s) = false.
Proof.
  revert k; induction s as [|c s IH]; intros k; [destruct k; reflexivity|].
  destruct k as [|k]; [|rewrite replace_go_skip; apply IH].
  rewrite replace_go_step.
  destruct (Py.starts_with "&quot;" (String c s)) eqn:Hs.
  - change (dquote ++ ?x)%string with (String (ascii_of_N 34) x).
    rewrite contains_cons, IH. reflexivity.
  - rewrite contains_cons, IH, orb_false_r.
    destruct (Py.starts_with "&quot;" (String c (Py.replace_go "&quot;" dquote 0 s)))
      eqn:Hr; [|reflexivity].
    rewrite starts_with_cons in Hr, Hs.
    destruct (Ascii.eqb "&" c); [|discriminate].
    rewrite (starts_with_replaced "quot;" s eq_refl Hr) in Hs. discriminate.
Qed.

(** A pattern found in a part of a text is found in the text. *)
Lemma starts_with_app (p a t : string) :
  Py.starts_with p a = true -> Py.starts_with p (a ++ t) = true.
Proof.
  revert a; induction p as [|x p IH]; intros a H; [reflexivity|].
  destruct a as [|y a]; [discriminate|].
  rewrite str_app_cons, starts_with_cons in *.
  destruct (Ascii.eqb x y); [apply IH; exact H | discriminate].
Qed.

Lemma contains_app_l (p a t : string) :
  Py.contains p a = true -> Py.contains p (a ++ t) = true.
Proof.
  induction a as [|y a IH]; intros H.
  - rewrite contains_nil in H. destruct p; [|discriminate].
    destruct t; reflexivity.
  - rewrite str_app_cons, contains_cons in *.
    apply orb_true_iff in H as [H|H]; apply orb_true_iff.
    + left. rewrite <- str_app_cons. apply starts_with_app. exact H.
    + right. apply IH. exact H.
Qed.

Lemma contains_lstrip (p x : string) :
  Py.contains p (Py.lstrip x) = true -> Py.contains p x = true.
Proof.
  induction x as [|c x IH]; intros H; [exact H|].
  simpl Py.lstrip in H. destruct (Py.is_space c); [|exact H].
  rewrite contains_cons. apply orb_true_iff. right. apply IH. exact H.
Qed.

Lemma rstrip_prefix (x : string) :
  exists t : string, x = (Py.rstrip x ++ t)%string.
Proof.
  induction x as [|c x [t IH]]; [exists EmptyString; reflexivity|].
  simpl Py.rstrip. destruct (Py.rstrip x) as [|r0 r].
  - destruct (Py.is_space c).
    + exists (String c x). reflexivity.
    + exists x. reflexivity.
  - exists t. rewrite str_app_cons. f_equal. exact IH.
Qed.

Lemma contains_strip (p x : string) :
  Py.contains p (Py.strip x) = true -> Py.contains p x = true.
Proof.
  intros H. apply contains_lstrip. unfold Py.strip in H.
  destruct (rstrip_prefix (Py.lstrip x)) as [t Ht]. rewrite Ht.
  apply contains_app_l. exact H.
Qed.

Lemma clean_no_entity (chunk : string) :
  Py.contains "&quot;" (clean chunk) = false.
Proof.
  destruct (Py.contains "&quot;" (clean chunk)) eqn:H; [|reflexivity].
  unfold clean in H. apply contains_strip in H.
  change (Py.replace "&quot;" dquote chunk)
    with (Py.replace_go "&quot;" dquote 0 chunk) in H.
  rewrite replace_go_no_entity in H. discriminate.
Qed.

(** A pattern without the separator does not straddle it. *)
Lemma starts_with_app_sep (p a b : string) (sp : ascii) :
  Py.contains (String sp EmptyString) p = false ->
  Py.starts_with p (a ++ String sp b) = true -> Py.starts_with p a = true.
Proof.
  revert a; induction p as [|x p IH]; intros a Hno H; [destruct a; reflexivity|].
  apply no_char_cons in Hno as [Hx Hno].
  destruct a as [|y a].
  - rewrite str_app_nil_l, starts_with_cons, Hx in H. discriminate.
  - rewrite str_app_cons, starts_with_cons in *.
    destruct (Ascii.eqb x y); [apply IH; assumption | discriminate].
Qed.

Lemma contains_app_sep (p a b : string) (sp : ascii) :
  Py.contains (String sp EmptyString) p = false ->
  Py.contains p a = false -> Py.contains p b = false ->
  Py.contains p (a ++ String sp b) = false.
Proof.
  intros Hno Ha Hb. induction a as [|y a IH].
  - rewrite str_app_nil_l, contains_cons, Hb, orb_false_r.
    destruct (Py.starts_with p (String sp b)) eqn:Hs; [|reflexivity].
    apply (starts_with_app_sep p EmptyString b sp Hno) in Hs.
    rewrite contains_nil in Ha. congruence.
  - rewrite contains_cons in Ha. apply orb_false_iff in Ha as [Ha1 Ha2].
    rewrite str_app_cons, contains_cons, (IH Ha2), orb_false_r.
    destruct (Py.starts_with p (String y (a ++ String sp b))) eqn:Hs; [|reflexivity].
    rewrite <- str_app_cons in Hs.
    apply (starts_with_app_sep p (String y a) b sp Hno) in Hs. congruence.
Qed.

Lemma join_no_pattern (p : string) (l : list string) :
  Py.contains " " p = false ->
  Py.contains p EmptyString = false ->
  (forall x : string, In x l -> Py.contains p x = false) ->
  Py.contains p (Py.join " " l) = false.
Proof.
  intros Hno Hnil Hall. induction l as [|x l IH]; [exact Hnil|].
  destruct l as [|y l]; [apply Hall; left; reflexivity|].
  change (Py.join " " (x :: y :: l)) with (x ++ String " " (Py.join " " (y :: l)))%string.
  apply contains_app_sep; [exact Hno | apply Hall; left; reflexivity|].
  apply IH. intros z Hz. apply Hall. right. exact Hz.
Qed.

Lemma in_firstn {A : Type} (x : A) (n : nat) (l : list A) :
  In x (firstn n l) -> In x l.
Proof.
  revert l; induction n as [|n IH]; intros [|y l] H; simpl in H; try contradiction.
  destruct H as [->|H]; [left; reflexivity | right; apply IH; exact H].
Qed.

End Entities.

(** X15.  The context the selector returns never contains the entity
    [&quot;]: every selected fragment has its occurrences replaced, and
    neither trimming nor joining with spaces brings one back. *)
Theorem context_has_no_quot_entity
        {chat_session : Type} (self : ArticleChatbot chat_session)
        (query : string) (top_k : Z) :
  Py.contains "&quot;" (get_relevant_context self query top_k) = false.
Proof.
  unfold get_relevant_context.
  destruct (select_chunks _ top_k [] (chunks self)) as [|x l] eqn:Hsel; [reflexivity|].
  apply join_no_pattern; [reflexivity | reflexivity |].
  intros z Hz. rewrite <- Hsel in Hz. rewrite select_chunks_firstn in Hz.
  apply in_firstn in Hz. apply in_map_iff in Hz as (chunk & <- & _).
  apply clean_no_entity.
Qed.

Example context_has_no_quot_entity_ex :
  clean "  He said &quot;blue&quot; twice. " = "He said " ++ dquote ++ "blue" ++ dquote ++ " twice.".
Proof. reflexivity. Qed.

(** ** Listing the articles *)

Section Listing.

Implicit Types (row : gmap string pyval) (results : list (gmap string pyval)).

Lemma listing_of_row_cases row :
  match row !! "id" with
  | Some _ => listing_of_row row = Ok (entry_of row)
  | None => listing_of_row row = Raise KeyError
  end.
Proof.
  unfold listing_of_row, dict_getitem, entry_of, dict_get.
  destruct (row !! "id"); reflexivity.
Qed.

Lemma listing_loop_complete results (articles : list listing) :
  (forall row, In row results -> exists id : pyval, row !! "id" = Some id) ->
  listing_loop articles results = Ok (articles ++ map entry_of results)%list.
Proof.
  revert articles; induction results as [|row rest IH]; intros articles Hall.
  - simpl. rewrite app_nil_r. reflexivity.
  - simpl listing_loop. pose proof (listing_of_row_cases row) as Hrow.
    destruct (Hall row (or_introl eq_refl)) as [id Hid]. rewrite Hid in Hrow.
    rewrite Hrow. simpl rbind. rewrite IH.
    + rewrite <- app_assoc. reflexivity.
    + intros r Hr. apply Hall. right. exact Hr.
Qed.

Lemma listing_loop_missing_id results (articles : list listing) :
  (exists row, In row results /\ row !! "id" = None) ->
  listing_loop articles results = Raise KeyError.
Proof.
  revert articles; induction results as [|row rest IH]; intros articles (bad & Hin & Hbad).
  - destruct Hin.
  - simpl listing_loop. pose proof (listing_of_row_cases row) as Hrow.
    destruct (row !! "id") as [id|] eqn:Hid; rewrite Hrow; [|reflexivity].
    simpl rbind. apply IH. exists bad. split; [|exact Hbad].
    destruct Hin as [->|Hin]; [congruence | exact Hin].
Qed.

End Listing.

(** X16.  When the listing query succeeds and every row has an id, the
    list has one entry per row, in the order of the rows, with the row's
    id, its title or "Untitled", its teaser or "No summary available",
    and its two categories or the empty string; a stored null is kept as
    it is, the defaults are for absent columns only. *)
Theorem list_available_articles_complete (results : list (gmap string pyval)) :
  (forall row, In row results -> exists id : pyval, row !! "id" = Some id) ->
  list_available_articles (Ok results) = map entry_of results
  /\ length (list_available_articles (Ok results)) = length results
  /\ (forall row, row !! "title" = None -> listing_title (entry_of row) = PyStr "Untitled")
  /\ (forall row, row !! "title" = Some PyNone -> listing_title (entry_of row) = PyNone).
Proof.
  intros Hall.
  assert (H : list_available_articles (Ok results) = map entry_of results).
  { unfold list_available_articles. simpl rbind.
    rewrite (listing_loop_complete results [] Hall). reflexivity. }
  split; [exact H|]. split; [rewrite H; apply length_map|].
  split; intros row Hrow; unfold entry_of, dict_get; simpl; rewrite Hrow; reflexivity.
Qed.

Lemma list_available_articles_complete_witness :
  list_available_articles (Ok [sky_article; plain_article])
  = [entry_of sky_article; entry_of plain_article].
Proof.
  apply (list_available_articles_complete [sky_article; plain_article]).
  intros row [<-|[<-|[]]]; eexists; vm_compute; reflexivity.
Defined.

(** X17.  The listing is all or nothing: when the query raises, or when
    one row, wherever it is, has no id, the result is the empty list, and
    the entries of the good rows are lost with it. *)
Theorem list_available_articles_all_or_nothing (rows : result (list (gmap string pyval))) :
  (exists e : exn, rows = Raise e)
  \/ (exists results : list (gmap string pyval),
        rows = Ok results /\ exists row, In row results /\ row !! "id" = None) ->
  list_available_articles rows = [].
Proof.
  intros [[e ->]|(results & -> & Hbad)]; [reflexivity|].
  unfold list_available_articles. simpl rbind.
  rewrite (listing_loop_missing_id results [] Hbad). reflexivity.
Qed.

Lemma list_available_articles_all_or_nothing_witness :
  list_available_articles (Ok [sky_article; row_without_id; plain_article]) = [].
Proof.
  apply (list_available_articles_all_or_nothing
           (Ok [sky_article; row_without_id; plain_article])).
  right. exists [sky_article; row_without_id; plain_article]. split; [reflexivity|].
  exists row_without_id. split; [right; left; reflexivity | vm_compute; reflexivity].
Defined.

(** X18.  The articles endpoint never answers with an error: a failed
    listing query gives the same successful body as an empty table, an
    empty list with the message "No articles found". *)
Theorem list_articles_hides_failures (rows : result (list (gmap string pyval))) :
  (exists body : articles_data, list_articles rows = Http200 body)
  /\ ((exists e : exn, rows = Raise e) ->
      list_articles rows = list_articles (Ok [])
      /\ list_articles rows = Http200 (mkarticles_data [] (Some "No articles found"))).
Proof.
  split.
  - unfold list_articles. destruct (list_available_articles rows); eexists; reflexivity.
  - intros [e ->]. split; reflexivity.
Qed.

Lemma list_articles_hides_failures_witness :
  list_articles (Raise ServiceError)
  = Http200 (mkarticles_data [] (Some "No articles found")).
Proof.
  apply (proj2 (list_articles_hides_failures (Raise ServiceError))).
  exists ServiceError. reflexivity.
Defined.

(** ** The chat endpoints *)

(** X19.  A chat request whose lookup finds no row, or whose lookup
    raises, is answered with the HTTP error 500, whatever the question
    and the state of the chat service. *)
Theorem chat_endpoint_without_article
        {chat_session : Type}
        (send_message : chat_session -> string -> result response * chat_session)
        (year_text : Z -> string)
        (run_query : string -> result (list (gmap string pyval)))
        (fresh : chat_session) (id question : string) :
  run_query id = Ok [] \/ (exists e : exn, run_query id = Raise e) ->
  _get_article_data (run_query id) = Raise ValueError
  /\ chat_endpoint send_message year_text run_query fresh id question = Http500.
Proof.
  intros H.
  assert (Hget : _get_article_data (run_query id) = Raise ValueError)
    by (destruct H as [->|[e ->]]; reflexivity).
  split; [exact Hget|].
  unfold chat_endpoint, create_chatbot. rewrite Hget. reflexivity.
Qed.

Lemma chat_endpoint_without_article_witness :
  chat_endpoint service_up Py.str_of_int one_article_store 0%nat "nope" "Who wrote this?"
  = Http500
  /\ chat_endpoint service_up Py.str_of_int unreachable_store 0%nat "a1" "Who wrote this?"
     = Http500.
Proof.
  split.
  - apply (chat_endpoint_without_article service_up Py.str_of_int one_article_store
             0%nat "nope" "Who wrote this?").
    left. reflexivity.
  - apply (chat_endpoint_without_article service_up Py.str_of_int unreachable_store
             0%nat "a1" "Who wrote this?").
    right. exists ServiceError. reflexivity.
Defined.

(** X20.  A chat request builds its session anew from the first row of
    the lookup: the question is asked on a ledger that holds the priming
    turn and nothing else, and when the row's teaser is text or absent
    the request is answered with that session's answer, the article id
    and the question, never with an error. *)
Theorem chat_endpoint_answers
        {chat_session : Type}
        (send_message : chat_session -> string -> result response * chat_session)
        (year_text : Z -> string)
        (run_query : string -> result (list (gmap string pyval)))
        (fresh : chat_session) (id question : string)
        (row : gmap string pyval) (rest : list (gmap string pyval))
        (self : ArticleChatbot chat_session) :
  run_query id = Ok (row :: rest) ->
  init send_message id row fresh = Ok self ->
  (forall v : pyval, row !! "teaser_text" = Some v -> exists s : string, v = PyStr s) ->
  conversation_history self = [("system", priming_prompt (chunks self))]
  /\ exists answer : string,
       fst (chat_with_article send_message year_text question self) = Ok answer
       /\ chat_endpoint send_message year_text run_query fresh id question
          = Http200 (mkchat_data answer id question).
Proof.
  intros Hrows Hinit Hteaser.
  destruct (session_after_init_facts send_message id row fresh self Hinit) as (Hdata & Hhist).
  split; [exact Hhist|].
  destruct (chat_with_article_answers send_message year_text self question)
    as [answer Hanswer]; [rewrite Hdata; exact Hteaser|].
  exists answer. split; [exact Hanswer|].
  unfold chat_endpoint, create_chatbot. rewrite Hrows. simpl _get_article_data.
  simpl rbind at 2. rewrite Hinit. simpl rbind. rewrite Hanswer. reflexivity.
Qed.

Lemma chat_endpoint_answers_witness :
  chat_endpoint service_down Py.str_of_int one_article_store 0%nat "a1" "Who wrote this?"
  = Http200 (mkchat_data "Author: Jane Doe" "a1" "Who wrote this?").
Proof.
  destruct (chat_endpoint_answers service_down Py.str_of_int one_article_store 0%nat
              "a1" "Who wrote this?" sky_article []
              (mkbot "a1" sky_article 1%nat (repeat_string "The sky is blue. " 10)
                     (chunks (session_of service_down sky_article))
                     (conversation_history (session_of service_down sky_article))))
    as (_ & answer & Hanswer & Hendpoint).
  - reflexivity.
  - vm_compute. reflexivity.
  - intros v Hv. vm_compute in Hv. injection Hv as <-. eexists; reflexivity.
  - rewrite Hendpoint. f_equal. f_equal.
    vm_compute in Hanswer. injection Hanswer as <-. reflexivity.
Defined.

(** ** The two clean ways a call ends, and the window of three turns *)

(** X21.  When the chat handle answers the prompt and the reply has a
    text, [chat_with_article] returns that text and the ledger gains the
    user turn with the question and then the assistant turn with the
    text; the article and its fragments are untouched. *)
Theorem successful_exchange_is_recorded
        {chat_session : Type}
        (send_message : chat_session -> string -> result response * chat_session)
        (year_text : Z -> string) (self : ArticleChatbot chat_session)
        (question reply : string) (r : response) (c : chat_session) :
  send_message (chat self) (prompt_for self question) = (Ok r, c) ->
  text r = Ok reply ->
  fst (chat_with_article send_message year_text question self) = Ok reply
  /\ conversation_history (snd (chat_with_article send_message year_text question self))
     = (conversation_history self ++ [("user", question); ("assistant", reply)])%list
  /\ chat (snd (chat_with_article send_message year_text question self)) = c
  /\ chunks (snd (chat_with_article send_message year_text question self)) = chunks self.
Proof.
  intros Hsend Htext.
  rewrite (chat_with_article_replies send_message year_text self question r reply c Hsend Htext).
  repeat split.
Qed.

Lemma successful_exchange_is_recorded_witness :
  fst (chat_with_article service_up Py.str_of_int "Who wrote this?"
         (session_of service_up sky_article))
  = Ok "It is about the sky.".
Proof.
  apply (successful_exchange_is_recorded service_up Py.str_of_int
           (session_of service_up sky_article) "Who wrote this?" "It is about the sky."
           (mkresponse (Ok "It is about the sky.")) 2%nat);
    vm_compute; reflexivity.
Defined.

(** X22.  When the chat handle raises on the prompt, [chat_with_article]
    returns what the fallback returns for the question on the session as
    it was, and the ledger, the article and the fragments are as they
    were: nothing of the exchange is recorded. *)
Theorem send_failure_leaves_no_trace
        {chat_session : Type}
        (send_message : chat_session -> string -> result response * chat_session)
        (year_text : Z -> string) (self : ArticleChatbot chat_session)
        (question : string) (e : exn) (c : chat_session) :
  send_message (chat self) (prompt_for self question) = (Raise e, c) ->
  fst (chat_with_article send_message year_text question self)
  = _handle_basic_response year_text self question
  /\ conversation_history (snd (chat_with_article send_message year_text question self))
     = conversation_history self
  /\ article_data (snd (chat_with_article send_message year_text question self))
     = article_data self
  /\ chunks (snd (chat_with_article send_message year_text question self)) = chunks self.
Proof.
  intros Hsend.
  destruct (chat_with_article_send_raises send_message year_text self question e c Hsend)
    as [-> _].
  repeat split.
Qed.

Lemma send_failure_leaves_no_trace_witness :
  fst (chat_with_article service_down Py.str_of_int "Who wrote this?"
         (session_of service_down sky_article))
  = _handle_basic_response Py.str_of_int (session_of service_down sky_article) "Who wrote this?"
  /\ conversation_history
       (snd (chat_with_article service_down Py.str_of_int "Who wrote this?"
               (session_of service_down sky_article)))
     = conversation_history (session_of service_down sky_article).
Proof.
  destruct (send_failure_leaves_no_trace service_down Py.str_of_int
              (session_of service_down sky_article) "Who wrote this?" ServiceError 2%nat)
    as (Ha & Hh & _).
  - vm_compute. reflexivity.
  - split; [exact Ha | exact Hh].
Defined.

(** X23.  When reading the text of the reply raises, the user turn is
    already in the ledger: the call returns what the fallback returns on
    the ledger extended by that turn, and the ledger keeps exactly that
    one new turn, without an assistant turn. *)
Theorem text_failure_keeps_user_turn
        {chat_session : Type}
        (send_message : chat_session -> string -> result response * chat_session)
        (year_text : Z -> string) (self : ArticleChatbot chat_session)
        (question : string) (r : response) (e : exn) (c : chat_session) :
  send_message (chat self) (prompt_for self question) = (Ok r, c) ->
  text r = Raise e ->
  fst (chat_with_article send_message year_text question self)
  = _handle_basic_response year_text
      (set_history self (conversation_history self ++ [("user", question)])) question
  /\ conversation_history (snd (chat_with_article send_message year_text question self))
     = (conversation_history self ++ [("user", question)])%list.
Proof.
  intros Hsend Htext.
  rewrite (chat_with_article_text_raises send_message year_text self question r e c Hsend Htext).
  split; reflexivity.
Qed.

Lemma text_failure_keeps_user_turn_witness :
  conversation_history
    (snd (chat_with_article service_blocked Py.str_of_int "What color?"
            (session_of service_blocked plain_article)))
  = (conversation_history (session_of service_blocked plain_article)
     ++ [("user", "What color?")])%list.
Proof.
  apply (text_failure_keeps_user_turn service_blocked Py.str_of_int
           (session_of service_blocked plain_article) "What color?"
           (mkresponse (Raise ValueError)) ValueError 2%nat);
    vm_compute; reflexivity.
Defined.

Lemma list_from_last_three {A : Type} (older recent : list A) :
  length recent = 3%nat -> Py.list_from (older ++ recent) (-3) = recent.
Proof.
  intros Hlen. unfold Py.list_from, Py.clamp_index.
  rewrite length_app, Hlen.
  destruct (Z.ltb_spec (-3) 0) as [_|?]; [|lia].
  replace (Z.to_nat _) with (length older) by lia.
  rewrite skipn_app, skipn_all, Nat.sub_diag. reflexivity.
Qed.

(** X24.  Only the last three turns of the ledger are read: whatever
    came before them, the search terms and the selected context are
    those of the ledger cut down to its last three turns. *)
Theorem selector_reads_last_three_turns
        {chat_session : Type} (self : ArticleChatbot chat_session)
        (older recent : list (string * string)) (query : string) (top_k : Z) :
  length recent = 3%nat ->
  query_terms (older ++ recent) query = query_terms recent query
  /\ get_relevant_context (set_history self (older ++ recent)) query top_k
     = get_relevant_context (set_history self recent) query top_k.
Proof.
  intros Hlen.
  assert (Hw : Py.list_from (older ++ recent) (-3) = Py.list_from recent (-3)).
  { rewrite (list_from_last_three older recent Hlen).
    symmetry. apply (list_from_last_three [] recent Hlen). }
  split.
  - rewrite !query_terms_eq, Hw. reflexivity.
  - apply get_relevant_context_recent; [reflexivity | exact Hw].
Qed.

Lemma selector_reads_last_three_turns_witness :
  query_terms ([("system", "The sky."); ("user", "Hello")]
               ++ [("assistant", "Hi."); ("user", "Colour?"); ("assistant", "Hmm.")])
              "what color?"
  = query_terms [("assistant", "Hi."); ("user", "Colour?"); ("assistant", "Hmm.")]
                "what color?".
Proof.
  apply (selector_reads_last_three_turns (session_of service_up plain_article)
           [("system", "The sky."); ("user", "Hello")]
           [("assistant", "Hi."); ("user", "Colour?"); ("assistant", "Hmm.")]
           "what color?" 3).
  reflexivity.
Defined.

(** ** Search terms *)

Section Terms.

Lemma rev_string_nonempty (acc s : string) :
  acc <> EmptyString -> Py.rev_string acc s <> EmptyString.
Proof.
  revert acc; induction s as [|c s IH]; intros acc Hacc; [exact Hacc|].
  simpl. apply IH. discriminate.
Qed.

Lemma flush_nonempty (cur : string) (rest : list string) :
  List.Forall (fun t => t <> EmptyString) rest ->
  List.Forall (fun t => t <> EmptyString) (Py.flush cur rest).
Proof.
  intros Hrest. destruct cur as [|c cur]; [exact Hrest|].
  constructor; [|exact Hrest].
  simpl. apply rev_string_nonempty. discriminate.
Qed.

Lemma split_go_nonempty (cur s : string) :
  List.Forall (fun t => t <> EmptyString) (Py.split_go cur s).
Proof.
  revert cur; induction s as [|c s IH]; intros cur; simpl.
  - apply flush_nonempty. constructor.
  - destruct (Py.is_space c); [apply flush_nonempty|]; apply IH.
Qed.

End Terms.

(** X25.  No search term is the empty string, which every text would
    contain: the terms are the white-space separated tokens of the
    question and of the recent turns, so a fragment matches only through
    a token that really occurs in it, and the empty fragment matches
    nothing. *)
Theorem search_terms_are_not_empty
        (history : list (string * string)) (query term : string) :
  In term (query_terms history query) ->
  term <> EmptyString /\ Py.contains term EmptyString = false.
Proof.
  intros Hin.
  assert (Hne : term <> EmptyString).
  { rewrite query_terms_eq in Hin. apply in_app_or in Hin as [Hin|Hin].
    - pose proof (split_go_nonempty EmptyString (Py.lower query)) as Hall.
      rewrite List.Forall_forall in Hall. apply Hall. exact Hin.
    - apply in_flat_map in Hin as (turn & _ & Hin).
      pose proof (split_go_nonempty EmptyString (Py.lower (snd turn))) as Hall.
      rewrite List.Forall_forall in Hall. apply Hall. exact Hin. }
  split; [exact Hne|]. destruct term; [contradiction | reflexivity].
Qed.

Lemma search_terms_are_not_empty_witness :
  "sky" <> EmptyString /\ Py.contains "sky" EmptyString = false.
Proof.
  apply (search_terms_are_not_empty [("user", "The  sky ")] "  what  color? " "sky").
  vm_compute. tauto.
Defined.
